(** * The movie orchestrator agent: a shallow embedding and its properties

    The orchestrator (orchestrator.py) receives step notifications, loads the
    step, and routes it to a handler.  Handlers talk to the Nevermined
    Payments client: every call on that client is recorded here as an event
    of a trace, and its answer is taken from an oracle that sees the trace so
    far.  Python exceptions are explicit outcomes. *)

From Stdlib Require Import ZArith Ascii String List Lia.
From stdpp Require Import base list strings pretty.

Local Open Scope string_scope.
Local Open Scope Z_scope.

(** ** Python values and exceptions *)

(** The values that cross the JSON boundary (json.loads results, callback
    payloads, artifacts).  A dict keeps its items in insertion order. *)
#[warnings="-register-all"]
Inductive json : Type :=
| JNull
| JBool (b : bool)
| JNum (n : Z)
| JStr (s : string)
| JArr (items : list json)
| JObj (items : list (string * json)).

(** The exceptions the orchestrator can meet.  All of them are subclasses of
    Python's [Exception], so an [except Exception] clause catches each. *)
Inductive exn : Type :=
| Exception (msg : string)
| KeyError (key : string)
| TypeError
| AttributeError
| JSONDecodeError
| InvalidStateError
| ValidationError
| RemoteError (msg : string).

(** What a piece of code does: return, raise, or wait for ever on a future
    that nobody settles. *)
Inductive outcome (A : Type) : Type :=
| Ok (a : A)
| Raise (e : exn)
| Blocked.
Arguments Ok {A} a.
Arguments Raise {A} e.
Arguments Blocked {A}.

Definition outcome_bind {A B} (r : outcome A) (k : A -> outcome B) : outcome B :=
  match r with
  | Ok a => k a
  | Raise e => Raise e
  | Blocked => Blocked
  end.

Module Py.

(** [d.items()] of a dict; any other value has no such method. *)
Definition items (d : json) : outcome (list (string * json)) :=
  match d with
  | JObj kvs => Ok kvs
  | _ => Raise AttributeError
  end.

Fixpoint assoc (k : string) (kvs : list (string * json)) : option json :=
  match kvs with
  | [] => None
  | (k', v) :: rest => if String.eqb k' k then Some v else assoc k rest
  end.

(** [d.get(k, default)] *)
Definition get (d : json) (k : string) (default : json) : outcome json :=
  match d with
  | JObj kvs => Ok (from_option id default (assoc k kvs))
  | _ => Raise AttributeError
  end.

(** [d[k]] with a string key *)
Definition getitem (d : json) (k : string) : outcome json :=
  match d with
  | JObj kvs =>
      match assoc k kvs with
      | Some v => Ok v
      | None => Raise (KeyError k)
      end
  | _ => Raise TypeError
  end.

(** [sep.join(values)]: every item must be a str. *)
Fixpoint join (sep : string) (values : list json) : outcome string :=
  match values with
  | [] => Ok ""
  | JStr s :: rest =>
      match rest with
      | [] => Ok s
      | _ :: _ => outcome_bind (join sep rest) (fun r => Ok (s ++ sep ++ r))
      end
  | _ :: _ => Raise TypeError
  end%string.

(** [len(v)] *)
Definition len (v : json) : outcome Z :=
  match v with
  | JArr l => Ok (Z.of_nat (length l))
  | JObj kvs => Ok (Z.of_nat (length kvs))
  | JStr s => Ok (Z.of_nat (String.length s))
  | _ => Raise TypeError
  end.

Fixpoint chars (s : string) : list json :=
  match s with
  | EmptyString => []
  | String c rest => JStr (String c EmptyString) :: chars rest
  end.

(** [for x in v]: the elements of a list, the keys of a dict, the characters
    of a str. *)
Definition iter (v : json) : outcome (list json) :=
  match v with
  | JArr l => Ok l
  | JObj kvs => Ok (map (fun kv => JStr (fst kv)) kvs)
  | JStr s => Ok (chars s)
  | _ => Raise TypeError
  end.

End Py.

(** ** [generate_text_to_image_prompt] *)

(** The generator [(value for key, value in character.items() if key != "name")] *)
Fixpoint prompt_values (kvs : list (string * json)) : list json :=
  match kvs with
  | [] => []
  | (key, value) :: rest =>
      if negb (String.eqb key "name") then value :: prompt_values rest
      else prompt_values rest
  end.

Definition generate_text_to_image_prompt (character : json) : outcome string :=
  outcome_bind (Py.items character) (fun kvs => Py.join ", " (prompt_values kvs)).

(** ** Data model *)

(** Modelled from the spec: the enumeration [AgentExecutionStatus] of the
    payments_py package, with the three statuses the orchestrator uses; the
    [value] of each member is its name. *)
Inductive AgentExecutionStatus : Type := Pending | Completed | Failed.

Definition status_value (s : AgentExecutionStatus) : string :=
  match s with
  | Pending => "Pending"
  | Completed => "Completed"
  | Failed => "Failed"
  end.

(** A step as [get_step] returns it, with the keys the orchestrator reads.
    [input_artifacts], read with [step.get], is [None] when the key is absent
    from the dict. *)
Module Step.
Record t : Type := {
  step_id : string;
  task_id : string;
  did : string;
  name : string;
  step_status : string;
  input_query : string;
  input_artifacts : option json
}.
End Step.

(** An entry of the [steps] list given to [create_steps]. *)
Module NewStep.
Record t : Type := {
  step_id : string;
  task_id : string;
  predecessor : string;
  name : string;
  is_last : bool
}.
End NewStep.

(** The [step=] dict given to [update_step]; [output_artifacts] is [None]
    when the dict has no such key. *)
Module StepPatch.
Record t : Type := {
  step_status : string;
  output : json;
  output_artifacts : option json
}.
End StepPatch.

(** The task payload given to [create_task]. *)
Module TaskData.
Record t : Type := {
  query : string;
  name : string;
  additional_params : list json;
  artifacts : list json
}.
End TaskData.

(** The [TaskLog] object given to [log_task]. *)
Module TaskLog.
Record t : Type := {
  task_id : string;
  level : string;
  message : string;
  task_status : option AgentExecutionStatus
}.
End TaskLog.

(** What [create_task] returns.  An attribute the object does not have is
    [None]; [repr] is its rendering inside an f-string. *)
Module Response.
Record t : Type := {
  status_code : option Z;
  data : option json;
  repr : string
}.
End Response.

(** config/env.py *)
Record Config : Type := {
  THIS_PLAN_DID : string;
  IMAGE_GENERATOR_PLAN_DID : string;
  SCRIPT_GENERATOR_DID : string;
  CHARACTER_EXTRACTOR_DID : string;
  IMAGE_GENERATOR_DID : string
}.

(** The two functions of the Python library the orchestrator relies on:
    [json.loads] on a str, and the text of a value inside an f-string. *)
Record PyLib : Type := {
  json_loads : string -> outcome json;
  repr : json -> string
}.

(** ** Events and the collaborators *)

Inductive Event : Type :=
| EvLogger (level message : string)
| EvPrint (message : string)
| EvGetStep (step_id : json)
| EvLogTask (task_log : TaskLog.t)
| EvGenerateStepId
| EvCreateSteps (did task_id : string) (steps : list NewStep.t)
| EvUpdateStep (did task_id step_id : string) (step : StepPatch.t)
| EvCreateTask (agent_did : string) (task : TaskData.t) (callback : nat)
| EvGetTaskWithSteps (agent_did : string) (task_id : json)
| EvGetPlanBalance (plan_did : string)
| EvOrderPlan (plan_did : string)
| EvCallbackRaised (callback : nat) (e : exn).

(** The Payments client, with the step-id generator of the same package.
    Each method answers from the trace so far, whose last event is the call
    itself with its arguments. *)
Record Payments : Type := {
  get_step : list Event -> outcome Step.t;
  log_task : list Event -> outcome unit;
  create_steps : list Event -> outcome unit;
  update_step : list Event -> outcome unit;
  create_task : list Event -> outcome Response.t;
  get_task_with_steps : list Event -> outcome json;
  get_plan_balance : list Event -> outcome Z;
  order_plan : list Event -> outcome bool;
  generate_step_id : list Event -> string
}.

(** A store write: the three calls that create or change steps and tasks. *)
Definition is_store_write (ev : Event) : bool :=
  match ev with
  | EvCreateSteps _ _ _ | EvUpdateStep _ _ _ _ | EvCreateTask _ _ _ => true
  | _ => false
  end.

(** ** The asyncio state: futures, registered callbacks, pending deliveries *)

Inductive future_state : Type :=
| FPending
| FResult (result : json)
| FException (e : exn).

(** The [validate_task_fn] argument of [query_agent_with_prompt]. *)
Inductive Validator : Type := ValidateImageGenerationTask.

(** The two closures the orchestrator registers with [create_task], each with
    the variables it captures. *)
Inductive Closure : Type :=
| GenericTaskCallback (step : Step.t) (agent_did : string)
| ImageTaskCallback (step : Step.t) (task_future : nat) (validate_task_fn : Validator).

Record World : Type := {
  trace : list Event;
  futures : list future_state;
  callbacks : list Closure;
  inbox : list (nat * string)
}.

Definition set_trace (t : list Event) (w : World) : World :=
  {| trace := t; futures := futures w; callbacks := callbacks w; inbox := inbox w |}.
Definition set_futures (fs : list future_state) (w : World) : World :=
  {| trace := trace w; futures := fs; callbacks := callbacks w; inbox := inbox w |}.
Definition set_callbacks (cs : list Closure) (w : World) : World :=
  {| trace := trace w; futures := futures w; callbacks := cs; inbox := inbox w |}.
Definition set_inbox (ds : list (nat * string)) (w : World) : World :=
  {| trace := trace w; futures := futures w; callbacks := callbacks w; inbox := ds |}.

(** A world with nothing done yet and the given deliveries to come. *)
Definition initial_world (deliveries : list (nat * string)) : World :=
  {| trace := []; futures := []; callbacks := []; inbox := deliveries |}.

(** ** The monad of orchestrator code *)

Definition M (A : Type) : Type := World -> outcome A * World.

#[global] Instance M_ret : MRet M := fun A a w => (Ok a, w).

#[global] Instance M_bind : MBind M := fun A B k m w =>
  match m w with
  | (Ok a, w') => k a w'
  | (Raise e, w') => (Raise e, w')
  | (Blocked, w') => (Blocked, w')
  end.

Definition raise {A} (e : exn) : M A := fun w => (Raise e, w).

(** A computation that touches no collaborator. *)
Definition lift {A} (r : outcome A) : M A := fun w => (r, w).

(** [try: body / except Exception as e: handler e] *)
Definition try_except {A} (body : M A) (handler : exn -> M A) : M A := fun w =>
  match body w with
  | (Raise e, w') => handler e w'
  | r => r
  end.

(** Runs [m] and hands back how it ended, as the event loop sees a task. *)
Definition attempt {A} (m : M A) : M (outcome A) := fun w =>
  let (r, w') := m w in (Ok r, w').

Definition emit (ev : Event) : M unit := fun w =>
  (Ok tt, set_trace (trace w ++ [ev]) w).

(** A call on a collaborator: the call is recorded, then answered. *)
Definition call {A} (ev : Event) (answer : list Event -> outcome A) : M A := fun w =>
  let w' := set_trace (trace w ++ [ev]) w in (answer (trace w'), w').

Definition exec {A} (m : M A) (w : World) : World := snd (m w).
Definition result_of {A} (m : M A) (w : World) : outcome A := fst (m w).

(** ** asyncio futures and task creation *)

(** [asyncio.get_event_loop().create_future()] *)
Definition create_future : M nat := fun w =>
  (Ok (length (futures w)), set_futures (futures w ++ [FPending]) w).

(** [Future.set_result] and [Future.set_exception]: a future that is already
    done refuses a second settlement with [InvalidStateError]. *)
Definition settle (task_future : nat) (s : future_state) : M unit := fun w =>
  match futures w !! task_future with
  | Some FPending => (Ok tt, set_futures (<[task_future := s]> (futures w)) w)
  | _ => (Raise InvalidStateError, w)
  end.

Definition set_result (task_future : nat) (result : json) : M unit :=
  settle task_future (FResult result).

Definition set_exception (task_future : nat) (e : exn) : M unit :=
  settle task_future (FException e).

Section Orchestrator.

Variable py : PyLib.
Variable env : Config.
Variable payments : Payments.

(** The text of a value inside an f-string or a [print]. *)
Definition str (v : json) : string :=
  match v with
  | JStr s => s
  | _ => repr py v
  end.

(** [json.loads(v)]: anything but a str is a [TypeError]. *)
Definition loads (v : json) : outcome json :=
  match v with
  | JStr s => json_loads py s
  | _ => Raise TypeError
  end.

Definition is_str (v : json) (s : string) : bool :=
  match v with
  | JStr s' => String.eqb s' s
  | _ => false
  end.

Definition str_of_exn (e : exn) : string :=
  match e with
  | Exception msg => msg
  | KeyError key => "'" ++ key ++ "'"
  | RemoteError msg => msg
  | TypeError => "TypeError"
  | AttributeError => "AttributeError"
  | JSONDecodeError => "JSONDecodeError"
  | InvalidStateError => "invalid state"
  | ValidationError => "ValidationError"
  end.

Definition logger (level message : string) : M unit := emit (EvLogger level message).

Definition print (message : string) : M unit := emit (EvPrint message).

(** [ai_protocol.create_task(agent_did, task_data, task_callback)]: the
    callback is registered under the number the call carries. *)
Definition ai_create_task (agent_did : string) (task_data : TaskData.t)
    (task_callback : Closure) : M Response.t := fun w =>
  let cb := length (callbacks w) in
  call (EvCreateTask agent_did task_data cb) (create_task payments)
       (set_callbacks (callbacks w ++ [task_callback]) w).

(** *** utils/log_message.py *)

Definition log_method (level : string) : string :=
  if existsb (String.eqb level) ["info"; "warning"; "error"; "debug"] then level
  else "info".

Definition log_message (task_id level message : string)
    (task_status : option AgentExecutionStatus) : M unit :=
  logger (log_method level) (task_id ++ " :: " ++ message);;
  let task_log :=
    {| TaskLog.task_id := task_id; TaskLog.level := level;
       TaskLog.message := message; TaskLog.task_status := task_status |} in
  call (EvLogTask task_log) (log_task payments).

(** [log_message] called with a message that was read from a payload and
    not checked: the console line is written with the text of the value, and
    [TaskLog] then accepts a str only, so any other value raises
    [ValidationError] before [log_task] is called. *)
Definition log_message_value (task_id level : string) (message : json)
    (task_status : option AgentExecutionStatus) : M unit :=
  match message with
  | JStr s => log_message task_id level s task_status
  | _ =>
      logger (log_method level) (task_id ++ " :: " ++ str message);;
      raise ValidationError
  end.

(** *** payments/ensure_balance.py *)

Definition ensure_sufficient_balance (plan_did : string) (required_balance : Z) : M bool :=
  logger "info" ("Checking balance for plan " ++ plan_did ++ "...");;
  balance ← call (EvGetPlanBalance plan_did) (get_plan_balance payments);
  if balance <? required_balance then
    logger "info" ("Balance insufficient for plan " ++ plan_did
                   ++ ". Required: " ++ pretty required_balance
                   ++ ", Available: " ++ pretty balance
                   ++ ". Ordering credits...");;
    success ← call (EvOrderPlan plan_did) (order_plan payments);
    if negb success then
      logger "error" ("Failed to order credits for plan " ++ plan_did ++ ".");;
      mret false
    else mret true
  else mret true.

(** *** orchestrator.py *)

Definition next_step_id : M string :=
  call EvGenerateStepId (fun t => Ok (generate_step_id payments t)).

Definition handle_init_step (step : Step.t) : M unit :=
  script_step_id ← next_step_id;
  character_step_id ← next_step_id;
  image_step_id ← next_step_id;
  let steps :=
    [ {| NewStep.step_id := script_step_id; NewStep.task_id := Step.task_id step;
         NewStep.predecessor := Step.step_id step; NewStep.name := "generateScript";
         NewStep.is_last := false |};
      {| NewStep.step_id := character_step_id; NewStep.task_id := Step.task_id step;
         NewStep.predecessor := script_step_id; NewStep.name := "extractCharacters";
         NewStep.is_last := false |};
      {| NewStep.step_id := image_step_id; NewStep.task_id := Step.task_id step;
         NewStep.predecessor := character_step_id;
         NewStep.name := "generateImagesForCharacters";
         NewStep.is_last := true |} ] in
  call (EvCreateSteps (Step.did step) (Step.task_id step) steps) (create_steps payments);;
  log_message (Step.task_id step) "info" "Steps created successfully." None;;
  call (EvUpdateStep (Step.did step) (Step.task_id step) (Step.step_id step)
          {| StepPatch.step_status := "Completed";
             StepPatch.output := JStr (Step.input_query step);
             StepPatch.output_artifacts := None |})
       (update_step payments).

Definition validate_generic_task (task_id : json) (agent_did : string)
    (parent_step : Step.t) : M unit :=
  task_data ← call (EvGetTaskWithSteps agent_did task_id) (get_task_with_steps payments);
  task ← lift (Py.getitem task_data "task");
  task_status ← lift (Py.getitem task "task_status");
  let status := if is_str task_status "Completed" then "Completed" else "Failed" in
  output ← lift (Py.get task "output" (JStr "Error during task execution"));
  output_artifacts ← lift (Py.get task "output_artifacts" (JArr []));
  call (EvUpdateStep (Step.did parent_step) (Step.task_id parent_step)
          (Step.step_id parent_step)
          {| StepPatch.step_status := status;
             StepPatch.output := output;
             StepPatch.output_artifacts := Some output_artifacts |})
       (update_step payments).

Definition validate_image_generation_task (task_id : json) : M json :=
  task_json ← call (EvGetTaskWithSteps (IMAGE_GENERATOR_DID env) task_id)
                 (get_task_with_steps payments);
  task ← lift (Py.getitem task_json "task");
  lift (Py.get task "output_artifacts" (JArr [])).

Definition run_validator (validate_task_fn : Validator) (task_id : json) : M json :=
  match validate_task_fn with
  | ValidateImageGenerationTask => validate_image_generation_task task_id
  end.

(** The [task_callback] closure of [handle_step_with_agent]. *)
Definition generic_task_callback (step : Step.t) (agent_did : string)
    (data : string) : M unit :=
  task_log ← lift (json_loads py data);
  task_status ← lift (Py.get task_log "task_status" JNull);
  if is_str task_status "Completed" then
    task_id ← lift (Py.getitem task_log "task_id");
    validate_generic_task task_id agent_did step
  else
    message ← lift (Py.getitem task_log "message");
    log_message_value (Step.task_id step) "info" message None.

Definition handle_step_with_agent (step : Step.t) (agent_did agent_name plan_did : string)
    : M unit :=
  has_balance ← ensure_sufficient_balance plan_did 1;
  if negb has_balance then mret tt
  else
    let task_data :=
      {| TaskData.query := Step.input_query step; TaskData.name := Step.name step;
         TaskData.additional_params := []; TaskData.artifacts := [] |} in
    result ← ai_create_task agent_did task_data (GenericTaskCallback step agent_did);
    if from_option id 0 (Response.status_code result) =? 201 then
      log_message (Step.task_id step) "info" "Task created successfully." None
    else
      log_message (Step.task_id step) "error"
        ("Error creating task for " ++ agent_name ++ ": " ++ Response.repr result)
        (Some Failed).

(** The [task_callback] closure of [query_agent_with_prompt]. *)
Definition image_task_callback (step : Step.t) (task_future : nat)
    (validate_task_fn : Validator) (data : string) : M unit :=
  task_log ← lift (json_loads py data);
  print "RECIBIENDO EVENTO TASK LOG:::";;
  task_status ← lift (Py.get task_log "task_status" JNull);
  if is_str task_status (status_value Completed) then
    task_id ← lift (Py.getitem task_log "task_id");
    artifacts ← run_validator validate_task_fn task_id;
    print ("Finished task: " ++ str task_id ++ " " ++ str artifacts);;
    set_result task_future artifacts
  else if is_str task_status (status_value Failed) then
    message ← lift (Py.getitem task_log "message");
    log_message_value (Step.task_id step) "error" message (Some Failed);;
    task_id ← lift (Py.getitem task_log "task_id");
    print ("Task failed: " ++ str task_id ++ " " ++ str task_log);;
    set_exception task_future (Exception "Sub-agent task failed")
  else
    print ("Task info: " ++ str task_log);;
    message ← lift (Py.getitem task_log "message");
    log_message_value (Step.task_id step) "info" message None.

(** [query_agent_with_prompt] up to its last line; the value is the future
    that [return await task_future] waits for. *)
Definition query_agent_with_prompt (step : Step.t) (prompt agent_name : string)
    (validate_task_fn : Validator) : M nat :=
  task_future ← create_future;
  let task_data :=
    {| TaskData.query := prompt; TaskData.name := Step.name step;
       TaskData.additional_params := []; TaskData.artifacts := [] |} in
  result ← ai_create_task (IMAGE_GENERATOR_DID env) task_data
             (ImageTaskCallback step task_future validate_task_fn);
  status_code ← lift (from_option Ok (Raise AttributeError) (Response.status_code result));
  if negb (status_code =? 201) then
    data ← lift (from_option Ok (Raise AttributeError) (Response.data result));
    raise (Exception ("Error creating task for " ++ agent_name ++ ": " ++ str data))
  else mret task_future.

(** *** The event loop *)

Definition run_closure (c : Closure) (data : string) : M unit :=
  match c with
  | GenericTaskCallback step agent_did => generic_task_callback step agent_did data
  | ImageTaskCallback step task_future validate_task_fn =>
      image_task_callback step task_future validate_task_fn data
  end.

(** One delivery: the payload goes to the callback registered under that
    number.  An exception leaving a callback ends that callback only; the
    trace keeps it as [EvCallbackRaised]. *)
Definition deliver (d : nat * string) : M unit := fun w =>
  match callbacks w !! fst d with
  | None => (Ok tt, w)
  | Some c =>
      match run_closure c (snd d) w with
      | (Raise e, w') => emit (EvCallbackRaised (fst d) e) w'
      | (_, w') => (Ok tt, w')
      end
  end.

(** Every coroutine given to [gather] is started, in order, and runs to the
    future it waits for. *)
Fixpoint start_all (tasks : list (M nat)) : M (list (outcome nat)) :=
  match tasks with
  | [] => mret []
  | t :: rest =>
      r ← attempt t;
      rs ← start_all rest;
      mret (r :: rs)
  end.

Fixpoint first_raise {A} (rs : list (outcome A)) : option exn :=
  match rs with
  | [] => None
  | Raise e :: _ => Some e
  | _ :: rest => first_raise rest
  end.

Inductive join_state : Type :=
| JoinDone (results : list json)
| JoinFailed (e : exn)
| JoinWaiting.

(** Where the join stands: failed as soon as one awaited future holds an
    exception, done when every one holds a result. *)
Fixpoint poll (started : list (outcome nat)) (fs : list future_state) : join_state :=
  match started with
  | [] => JoinDone []
  | r :: rest =>
      let here :=
        match r with
        | Ok f => from_option id FPending (fs !! f)
        | _ => FPending
        end in
      match here, poll rest fs with
      | FException e, _ => JoinFailed e
      | _, JoinFailed e => JoinFailed e
      | FResult a, JoinDone results => JoinDone (a :: results)
      | _, _ => JoinWaiting
      end
  end.

Fixpoint await_all (deliveries : list (nat * string)) (started : list (outcome nat))
    : M (list json) := fun w =>
  match poll started (futures w) with
  | JoinFailed e => (Raise e, w)
  | JoinDone results => (Ok results, w)
  | JoinWaiting =>
      match deliveries with
      | [] => (Blocked, w)
      | d :: rest => (deliver d;; await_all rest started) (set_inbox rest w)
      end
  end.

(** [await asyncio.gather] over [tasks], with [return_exceptions=False] *)
Definition gather (tasks : list (M nat)) : M (list json) :=
  started ← start_all tasks;
  match first_raise started with
  | Some e => raise e
  | None => fun w => await_all (inbox w) started w
  end.

(** The loop [for character in characters_json] that fills [tasks]. *)
Fixpoint image_tasks (step : Step.t) (characters_json : list json)
    : outcome (list (M nat)) :=
  match characters_json with
  | [] => Ok []
  | character :: rest =>
      outcome_bind (generate_text_to_image_prompt character) (fun prompt =>
      outcome_bind (image_tasks step rest) (fun tasks =>
      Ok (query_agent_with_prompt step prompt "Image Generator"
            ValidateImageGenerationTask :: tasks)))
  end.

(** The [try] / [except] statement that ends
    [handle_image_generation_for_characters]. *)
Definition join_image_tasks (step : Step.t) (tasks : list (M nat)) : M unit :=
  try_except
    (artifacts ← gather tasks;
     log_message (Step.task_id step) "info" "All image tasks completed." (Some Completed);;
     call (EvUpdateStep (Step.did step) (Step.task_id step) (Step.step_id step)
             {| StepPatch.step_status := "Completed";
                StepPatch.output := JStr "All image tasks completed.";
                StepPatch.output_artifacts := Some (JArr artifacts) |})
          (update_step payments))
    (fun e =>
     call (EvUpdateStep (Step.did step) (Step.task_id step) (Step.step_id step)
             {| StepPatch.step_status := "Failed";
                StepPatch.output := JStr "One or more image tasks failed.";
                StepPatch.output_artifacts := None |})
          (update_step payments);;
     log_message (Step.task_id step) "error"
       ("Error during image tasks: " ++ str_of_exn e) (Some Failed)).

Definition handle_image_generation_for_characters (step : Step.t) : M unit :=
  characters ← lift (loads (from_option id (JStr "[]") (Step.input_artifacts step)));
  characters_json ← lift (loads characters);
  required ← lift (Py.len characters_json);
  has_balance ← ensure_sufficient_balance (IMAGE_GENERATOR_PLAN_DID env) required;
  if negb has_balance then
    raise (Exception "Insufficient balance for image generation tasks.")
  else
    cs ← lift (Py.iter characters_json);
    tasks ← lift (image_tasks step cs);
    join_image_tasks step tasks.

(** The routing that follows the Pending gate of [run]. *)
Definition dispatch (step : Step.t) : M unit :=
  if String.eqb (Step.name step) "init" then handle_init_step step
  else if String.eqb (Step.name step) "generateScript" then
    handle_step_with_agent step (SCRIPT_GENERATOR_DID env) "Script Generator"
      (THIS_PLAN_DID env)
  else if String.eqb (Step.name step) "extractCharacters" then
    handle_step_with_agent step (CHARACTER_EXTRACTOR_DID env) "Character Extractor"
      (THIS_PLAN_DID env)
  else if String.eqb (Step.name step) "generateImagesForCharacters" then
    handle_image_generation_for_characters step
  else
    logger "warning" ("Unrecognized step name: " ++ Step.name step ++ ". Skipping.").

Definition run (data : json) : M unit :=
  logger "info" ("Received event: " ++ str data);;
  step_id ← lift (Py.getitem data "step_id");
  step ← call (EvGetStep step_id) (get_step payments);
  log_message (Step.task_id step) "info"
    ("Processing Step " ++ Step.step_id step ++ " [" ++ Step.step_status step ++ "]: "
     ++ Step.input_query step)
    (Some Pending);;
  if negb (String.eqb (Step.step_status step) "Pending") then
    logger "warning" (Step.task_id step ++ " :: Step " ++ Step.step_id step
                      ++ " is not pending. Skipping.")
  else dispatch step.

End Orchestrator.

(** ** Vocabulary of the statements *)

(** The trace at which [ensure_sufficient_balance] asks for the balance, and
    the one at which it orders credits, when it starts from trace [t]. *)
Definition balance_call (plan_did : string) (t : list Event) : list Event :=
  t ++ [EvLogger "info" ("Checking balance for plan " ++ plan_did ++ "...");
        EvGetPlanBalance plan_did].

Definition order_call (plan_did : string) (required_balance balance : Z)
    (t : list Event) : list Event :=
  balance_call plan_did t
  ++ [EvLogger "info" ("Balance insufficient for plan " ++ plan_did
                       ++ ". Required: " ++ pretty required_balance
                       ++ ", Available: " ++ pretty balance
                       ++ ". Ordering credits...");
      EvOrderPlan plan_did].

Definition is_order_plan (ev : Event) : bool :=
  match ev with EvOrderPlan _ => true | _ => false end.

Definition is_get_plan_balance (ev : Event) : bool :=
  match ev with EvGetPlanBalance _ => true | _ => false end.

(** A collaborator method that answers every call without raising. *)
Definition reliable (answer : list Event -> outcome unit) : Prop :=
  forall t, answer t = Ok tt.

(** The delegate behind an entry of [gather]'s list resolved with [a]: its
    coroutine reached its future, and the future holds the result [a]. *)
Definition resolved_with (fs : list future_state) (r : outcome nat) (a : json) : Prop :=
  exists f, r = Ok f /\ fs !! f = Some (FResult a).

(** Some delegate failed with [e]: its coroutine raised [e], or the future it
    waits for holds the exception [e]. *)
Definition delegate_failed (started : list (outcome nat)) (fs : list future_state)
    (e : exn) : Prop :=
  In (Raise e) started
  \/ exists f, In (Ok f) started /\ fs !! f = Some (FException e).

(** How the coroutines given to [gather] ended their first run. *)
Definition started_of (tasks : list (M nat)) (w : World) : list (outcome nat) :=
  match start_all tasks w with
  | (Ok started, _) => started
  | _ => []
  end.

(** [handle_image_generation_for_characters] reaches its [try] statement
    from world [w]: the artifacts parse to the characters [cs], the balance
    gate lets it through in world [wb], and [tasks] holds one coroutine per
    character. *)
Definition launches (py : PyLib) (env : Config) (payments : Payments) (step : Step.t)
    (w : World) (cs : list json) (tasks : list (M nat)) (wb : World) : Prop :=
  exists characters characters_json required,
    loads py (from_option id (JStr "[]") (Step.input_artifacts step)) = Ok characters
    /\ loads py characters = Ok characters_json
    /\ Py.len characters_json = Ok required
    /\ ensure_sufficient_balance payments (IMAGE_GENERATOR_PLAN_DID env) required w
       = (Ok true, wb)
    /\ Py.iter characters_json = Ok cs
    /\ image_tasks py env payments step cs = Ok tasks.

(** The coroutine [t] is the image delegate of [character]. *)
Definition delegate_of (py : PyLib) (env : Config) (payments : Payments) (step : Step.t)
    (character : json) (t : M nat) : Prop :=
  exists prompt,
    generate_text_to_image_prompt character = Ok prompt
    /\ t = query_agent_with_prompt py env payments step prompt "Image Generator"
             ValidateImageGenerationTask.

(** The three events of the success branch and of the failure branch of the
    join, for a step. *)
Definition completed_events (step : Step.t) (artifacts : list json) : list Event :=
  [EvLogger "info" (Step.task_id step ++ " :: " ++ "All image tasks completed.");
   EvLogTask {| TaskLog.task_id := Step.task_id step; TaskLog.level := "info";
                TaskLog.message := "All image tasks completed.";
                TaskLog.task_status := Some Completed |};
   EvUpdateStep (Step.did step) (Step.task_id step) (Step.step_id step)
     {| StepPatch.step_status := "Completed";
        StepPatch.output := JStr "All image tasks completed.";
        StepPatch.output_artifacts := Some (JArr artifacts) |}].

Definition failed_events (step : Step.t) (e : exn) : list Event :=
  [EvUpdateStep (Step.did step) (Step.task_id step) (Step.step_id step)
     {| StepPatch.step_status := "Failed";
        StepPatch.output := JStr "One or more image tasks failed.";
        StepPatch.output_artifacts := None |};
   EvLogger "error" (Step.task_id step ++ " :: "
                     ++ ("Error during image tasks: " ++ str_of_exn e));
   EvLogTask {| TaskLog.task_id := Step.task_id step; TaskLog.level := "error";
                TaskLog.message := "Error during image tasks: " ++ str_of_exn e;
                TaskLog.task_status := Some Failed |}].

(** The events of [run] up to the call of [get_step], and up to its Pending
    gate. *)
Definition received_events (py : PyLib) (data step_id : json) : list Event :=
  [EvLogger "info" ("Received event: " ++ str py data); EvGetStep step_id].

Definition gate_events (py : PyLib) (data step_id : json) (step : Step.t) : list Event :=
  received_events py data step_id
  ++ [EvLogger "info"
        (Step.task_id step ++ " :: "
         ++ ("Processing Step " ++ Step.step_id step ++ " [" ++ Step.step_status step
             ++ "]: " ++ Step.input_query step));
      EvLogTask
        {| TaskLog.task_id := Step.task_id step; TaskLog.level := "info";
           TaskLog.message :=
             "Processing Step " ++ Step.step_id step ++ " [" ++ Step.step_status step
             ++ "]: " ++ Step.input_query step;
           TaskLog.task_status := Some Pending |}].

Definition skipping_event (step : Step.t) : Event :=
  EvLogger "warning" (Step.task_id step ++ " :: Step " ++ Step.step_id step
                      ++ " is not pending. Skipping.").

(** Code that leaves every future as it found it. *)
Definition quiet {A} (m : M A) : Prop :=
  forall w, futures (exec m w) = futures w.

(** Code that either leaves every future as it found it, or returns having
    settled the pending future [f] and nothing else. *)
Definition settles_at_most_once (f : nat) (m : M unit) : Prop :=
  forall w,
    futures (exec m w) = futures w
    \/ (futures w !! f = Some FPending
        /\ result_of m w = Ok tt
        /\ exists s, s <> FPending /\ futures (exec m w) = <[f := s]> (futures w)).

(** A character whose attribute values are all strings, as a JSON object. *)
Definition character_of (attrs : list (string * string)) : json :=
  JObj (map (fun kv => (fst kv, JStr (snd kv))) attrs).

(** ** Sample collaborators *)

Definition dq : string := String "034"%char EmptyString.

Definition sample_repr (v : json) : string :=
  match v with
  | JNull => "None"
  | JBool true => "True"
  | JBool false => "False"
  | JNum n => pretty n
  | JStr s => "'" ++ s ++ "'"
  | JArr _ => "[...]"
  | JObj _ => "{...}"
  end.

Definition sample_config : Config :=
  {| THIS_PLAN_DID := "did:nv:plan";
     IMAGE_GENERATOR_PLAN_DID := "did:nv:image-plan";
     SCRIPT_GENERATOR_DID := "did:nv:script";
     CHARACTER_EXTRACTOR_DID := "did:nv:characters";
     IMAGE_GENERATOR_DID := "did:nv:images" |}.

Definition sample_step (name step_status : string) (input_artifacts : option json)
    : Step.t :=
  {| Step.step_id := "step-1"; Step.task_id := "task-1"; Step.did := "did:nv:this";
     Step.name := name; Step.step_status := step_status;
     Step.input_query := "a movie about a lighthouse";
     Step.input_artifacts := input_artifacts |}.

(** A client whose store and log never fail, with a fixed step, balance,
    answer to [order_plan] and answer to [create_task]; the record of a task
    is looked up by the task id of the call. *)
Definition sample_payments (step : Step.t) (balance : Z) (order_ok : bool)
    (created : Response.t) (task_of : json -> json) : Payments :=
  {| get_step := fun _ => Ok step;
     log_task := fun _ => Ok tt;
     create_steps := fun _ => Ok tt;
     update_step := fun _ => Ok tt;
     create_task := fun _ => Ok created;
     get_task_with_steps := fun t =>
       match last t with
       | Some (EvGetTaskWithSteps _ task_id) => Ok (task_of task_id)
       | _ => Raise (RemoteError "not a task query")
       end;
     get_plan_balance := fun _ => Ok balance;
     order_plan := fun _ => Ok order_ok;
     generate_step_id := fun t => "step-" ++ pretty (length t) |}.

Definition accepted : Response.t :=
  {| Response.status_code := Some 201; Response.data := None;
     Response.repr := "<Response [201]>" |}.

Definition rejected : Response.t :=
  {| Response.status_code := Some 500; Response.data := Some (JStr "server error");
     Response.repr := "<Response [500]>" |}.

(** JSON documents, each with the value [json.loads] gives for it. *)
Definition quoted (s : string) : string := dq ++ s ++ dq.

Definition member (kv : string * string) : string :=
  quoted (fst kv) ++ ": " ++ quoted (snd kv).

Definition object_text (members : list (string * string)) : string :=
  "{" ++ String.concat ", " (map member members) ++ "}".

Definition object_value (members : list (string * string)) : json :=
  JObj (map (fun kv => (fst kv, JStr (snd kv))) members).

Fixpoint escaped (s : string) : string :=
  match s with
  | EmptyString => EmptyString
  | String c rest =>
      if Ascii.eqb c "034" then String "092" (String c (escaped rest))
      else String c (escaped rest)
  end.

Definition sample_characters : list (list (string * string)) :=
  [ [("name", "Amy"); ("hair", "red")];
    [("name", "Bo"); ("hair", "black"); ("eyes", "blue")];
    [("name", "Cy"); ("hat", "green")] ].

Definition characters_text : string :=
  "[" ++ String.concat ", " (map object_text sample_characters) ++ "]".

Definition input_artifacts_text : string := quoted (escaped characters_text).

Definition completed_event (task_id : string) : list (string * string) :=
  [("task_status", "Completed"); ("task_id", task_id)].

Definition failed_event (task_id : string) : list (string * string) :=
  [("task_status", "Failed"); ("task_id", task_id); ("message", "render failed")].

Definition progress_event (task_id : string) : list (string * string) :=
  [("task_status", "In_Progress"); ("task_id", task_id); ("message", "rendering")].

Definition sample_events : list (list (string * string)) :=
  flat_map (fun task_id =>
              [completed_event task_id; failed_event task_id; progress_event task_id])
    ["t0"; "t1"; "t2"].

Definition sample_documents : list (string * json) :=
  (input_artifacts_text, JStr characters_text)
  :: (characters_text, JArr (map object_value sample_characters))
  :: ("[]", JArr [])
  :: map (fun ev => (object_text ev, object_value ev)) sample_events.

Definition sample_json_loads (s : string) : outcome json :=
  match List.find (fun doc => String.eqb (fst doc) s) sample_documents with
  | Some doc => Ok (snd doc)
  | None => Raise JSONDecodeError
  end.

Definition sample_py : PyLib :=
  {| json_loads := sample_json_loads; repr := sample_repr |}.

(** The record of a finished image task: one artifact, named after the task. *)
Definition sample_task_of (task_id : json) : json :=
  match task_id with
  | JStr tid =>
      JObj [("task", JObj [("task_status", JStr "Completed");
                           ("output", JStr "done");
                           ("output_artifacts", JArr [JStr (tid ++ ".png")])])]
  | _ => JObj []
  end.

Definition image_step : Step.t :=
  sample_step "generateImagesForCharacters" "Pending" (Some (JStr input_artifacts_text)).

Definition image_payments (balance : Z) (order_ok : bool) (created : Response.t)
    : Payments :=
  sample_payments image_step balance order_ok created sample_task_of.

(** The coroutines the image handler builds for the sample characters, and
    the world in which the balance gate of a sufficient plan leaves it. *)
Definition sample_delegates (payments : Payments) : list (M nat) :=
  map (fun prompt =>
         query_agent_with_prompt sample_py sample_config payments image_step prompt
           "Image Generator" ValidateImageGenerationTask)
      ["red"; "black, blue"; "green"].

Definition after_balance_gate (w : World) : World :=
  set_trace (balance_call "did:nv:image-plan" (trace w)) w.

(** The three delegates all complete. *)
Definition all_complete : World :=
  initial_world [(0%nat, object_text (completed_event "t0"));
                 (2%nat, object_text (completed_event "t2"));
                 (1%nat, object_text (progress_event "t1"));
                 (1%nat, object_text (completed_event "t1"))].

(** The second delegate fails, the other two complete. *)
Definition second_fails : World :=
  initial_world [(0%nat, object_text (completed_event "t0"));
                 (1%nat, object_text (failed_event "t1"));
                 (2%nat, object_text (completed_event "t2"))].

(** The notification of the sample step, and a client whose step store
    cannot be reached. *)
Definition notification : json := JObj [("step_id", JStr "step-1")].

Definition unreachable (p : Payments) : Payments :=
  {| get_step := fun _ => Raise (RemoteError "step store unreachable");
     log_task := log_task p;
     create_steps := create_steps p;
     update_step := update_step p;
     create_task := create_task p;
     get_task_with_steps := get_task_with_steps p;
     get_plan_balance := get_plan_balance p;
     order_plan := order_plan p;
     generate_step_id := generate_step_id p |}.

(** One delegate waiting for its future, and the same once a first Completed
    signal has settled the future. *)
Definition one_delegate : World :=
  exec (query_agent_with_prompt sample_py sample_config (image_payments 5 true accepted)
          image_step "red" "Image Generator" ValidateImageGenerationTask)
       (initial_world []).

Definition one_delegate_settled : World :=
  exec (image_task_callback sample_py sample_config (image_payments 5 true accepted)
          image_step 0 ValidateImageGenerationTask (object_text (completed_event "t0")))
       one_delegate.

(** The record of a task that its agent marked Failed, without output. *)
Definition failed_task_of (task_id : json) : json :=
  JObj [("task", JObj [("task_status", JStr "Failed")])].

(** A client whose store refuses the update that marks a step Completed. *)
Definition refusing_completed (p : Payments) : Payments :=
  {| get_step := get_step p;
     log_task := log_task p;
     create_steps := create_steps p;
     update_step := fun t =>
       match last t with
       | Some (EvUpdateStep _ _ _ patch) =>
           if String.eqb (StepPatch.step_status patch) "Completed"
           then Raise (RemoteError "update refused")
           else Ok tt
       | _ => Ok tt
       end;
     create_task := create_task p;
     get_task_with_steps := get_task_with_steps p;
     get_plan_balance := get_plan_balance p;
     order_plan := order_plan p;
     generate_step_id := generate_step_id p |}.

Definition is_update_step (ev : Event) : bool :=
  match ev with EvUpdateStep _ _ _ _ => true | _ => false end.

(** A parser that also knows the double encoding of the empty list, and one
    whose [input_artifacts] text holds a single character object instead of a
    list of characters. *)
Definition empty_list_py : PyLib :=
  {| json_loads := fun s =>
       if String.eqb s (quoted "[]") then Ok (JStr "[]") else sample_json_loads s;
     repr := sample_repr |}.

Definition lone_character : list (string * string) := [("name", "Amy"); ("hair", "red")].

Definition lone_character_py : PyLib :=
  {| json_loads := fun s =>
       if String.eqb s (quoted (escaped (object_text lone_character)))
       then Ok (JStr (object_text lone_character))
       else if String.eqb s (object_text lone_character)
            then Ok (object_value lone_character)
            else sample_json_loads s;
     repr := sample_repr |}.

(** A Failed signal whose message is the number 5, and a parser that knows
    it. *)
Definition numeric_message_text : string :=
  "{" ++ quoted "task_status" ++ ": " ++ quoted "Failed" ++ ", "
  ++ quoted "task_id" ++ ": " ++ quoted "t0" ++ ", "
  ++ quoted "message" ++ ": 5}".

Definition numeric_message_py : PyLib :=
  {| json_loads := fun s =>
       if String.eqb s numeric_message_text
       then Ok (JObj [("task_status", JStr "Failed"); ("task_id", JStr "t0");
                      ("message", JNum 5)])
       else sample_json_loads s;
     repr := sample_repr |}.

(** * Properties *)

Local Open Scope list_scope.

(** ** The image prompt *)

Lemma join_strings sep (ss : list string) :
  Py.join sep (map JStr ss) = Ok (String.concat sep ss).
Proof.
  induction ss as [|s rest IH]; [reflexivity|].
  destruct rest as [|s' rest]; [reflexivity|].
  change (map JStr (s :: s' :: rest)) with (JStr s :: JStr s' :: map JStr rest).
  change (Py.join sep (JStr s :: JStr s' :: map JStr rest))
    with (outcome_bind (Py.join sep (map JStr (s' :: rest)))
            (fun r => Ok (s ++ sep ++ r)%string)).
  rewrite IH. reflexivity.
Qed.

Lemma prompt_values_strings (attrs : list (string * string)) :
  prompt_values (map (fun kv => (fst kv, JStr (snd kv))) attrs)
  = map JStr (map snd (filter (fun kv => fst kv <> "name") attrs)).
Proof.
  induction attrs as [|[k v] rest IH]; [reflexivity|].
  cbn [map prompt_values fst snd]. rewrite IH.
  rewrite filter_cons. cbn [fst].
  destruct (String.eqb_spec k "name") as [->|Hne]; cbn [negb].
  - rewrite decide_False by (intros H; apply H; reflexivity). reflexivity.
  - rewrite decide_True by assumption. reflexivity.
Qed.

(** C8: for every character mapping, the prompt is the values of all
    attributes except "name", joined with ", " in insertion order; the two
    characters of the specification give "red" and "black, blue". *)
Theorem generate_text_to_image_prompt_spec :
  (forall attrs : list (string * string),
      generate_text_to_image_prompt (character_of attrs)
      = Ok (String.concat ", " (map snd (filter (fun kv => fst kv <> "name") attrs))))
  /\ generate_text_to_image_prompt
       (JObj [("name", JStr "Amy"); ("hair", JStr "red")]) = Ok "red"
  /\ generate_text_to_image_prompt
       (JObj [("name", JStr "Bo"); ("hair", JStr "black"); ("eyes", JStr "blue")])
     = Ok "black, blue".
Proof.
  split; [|split; reflexivity].
  intros attrs. unfold generate_text_to_image_prompt, character_of.
  cbn [Py.items outcome_bind].
  rewrite prompt_values_strings. apply join_strings.
Qed.

(** ** Stepping through the monad *)

Lemma bind_eq {A B} (m : M A) (k : A -> M B) (w : World) :
  (m ≫= k) w
  = match m w with
    | (Ok a, w') => k a w'
    | (Raise e, w') => (Raise e, w')
    | (Blocked, w') => (Blocked, w')
    end.
Proof. reflexivity. Qed.

Lemma call_eq {A} (ev : Event) (answer : list Event -> outcome A) (w : World) :
  call ev answer w = (answer (trace w ++ [ev]), set_trace (trace w ++ [ev]) w).
Proof. reflexivity. Qed.

Lemma logger_eq level message w :
  logger level message w = (Ok tt, set_trace (trace w ++ [EvLogger level message]) w).
Proof. reflexivity. Qed.

Lemma log_message_eq payments task_id level message task_status w :
  let t := trace w
           ++ [EvLogger (log_method level) (task_id ++ " :: " ++ message)%string;
               EvLogTask {| TaskLog.task_id := task_id; TaskLog.level := level;
                            TaskLog.message := message;
                            TaskLog.task_status := task_status |}] in
  log_message payments task_id level message task_status w
  = (log_task payments t, set_trace t w).
Proof.
  cbn zeta. unfold log_message. rewrite bind_eq, logger_eq, call_eq.
  cbn [trace set_trace]. rewrite <- !app_assoc. reflexivity.
Qed.

(** Normalises the traces and worlds that a few steps of code leave behind. *)
Ltac tidy :=
  cbn [trace set_trace futures callbacks inbox set_futures set_callbacks set_inbox
       fst snd];
  rewrite <- ?app_assoc; cbn [app].

(** ** The balance gate *)

Section BalanceGate.

Variable payments : Payments.
Variables (plan_did : string) (required_balance balance : Z) (w : World).
Hypothesis Hbalance :
  get_plan_balance payments (balance_call plan_did (trace w)) = Ok balance.

Lemma balance_enough :
  required_balance <= balance ->
  ensure_sufficient_balance payments plan_did required_balance w
  = (Ok true, set_trace (balance_call plan_did (trace w)) w).
Proof.
  intros Hle. pose proof Hbalance as Hb. unfold balance_call in Hb |- *.
  unfold ensure_sufficient_balance.
  rewrite bind_eq, logger_eq, bind_eq, call_eq. tidy. rewrite Hb.
  destruct (Z.ltb_spec balance required_balance); [lia|]. reflexivity.
Qed.

Lemma balance_short_order (answer : outcome bool) :
  balance < required_balance ->
  order_plan payments (order_call plan_did required_balance balance (trace w)) = answer ->
  ensure_sufficient_balance payments plan_did required_balance w
  = match answer with
    | Ok false =>
        (Ok false,
         set_trace (order_call plan_did required_balance balance (trace w)
                    ++ [EvLogger "error"
                          ("Failed to order credits for plan " ++ plan_did ++ ".")%string])
                   w)
    | Ok true =>
        (Ok true, set_trace (order_call plan_did required_balance balance (trace w)) w)
    | Raise e =>
        (Raise e, set_trace (order_call plan_did required_balance balance (trace w)) w)
    | Blocked =>
        (Blocked, set_trace (order_call plan_did required_balance balance (trace w)) w)
    end.
Proof.
  intros Hlt Hanswer. pose proof Hbalance as Hb.
  unfold order_call, balance_call in *. rewrite <- app_assoc in Hanswer.
  cbn [app] in Hanswer. rewrite <- ?app_assoc. cbn [app].
  unfold ensure_sufficient_balance.
  rewrite bind_eq, logger_eq, bind_eq, call_eq. tidy. rewrite Hb.
  destruct (Z.ltb_spec balance required_balance); [|lia].
  rewrite bind_eq, logger_eq, bind_eq, call_eq. tidy. rewrite Hanswer.
  destruct answer as [[|]| |]; try reflexivity.
  cbn [negb]. rewrite bind_eq, logger_eq. tidy. reflexivity.
Qed.

End BalanceGate.

(** C10: [ensure_sufficient_balance] reads the balance once, calls
    [order_plan] exactly when the balance is below the required units, returns
    True when the balance suffices or the order succeeds, and returns False
    only when the balance is short and the order fails. *)
Theorem ensure_sufficient_balance_spec (payments : Payments) (plan_did : string)
    (required_balance balance : Z) (w : World) :
  get_plan_balance payments (balance_call plan_did (trace w)) = Ok balance ->
  exists new,
    exec (ensure_sufficient_balance payments plan_did required_balance) w
    = set_trace (trace w ++ new) w
    /\ length (List.filter is_get_plan_balance new) = 1%nat
    /\ existsb is_order_plan new = (balance <? required_balance)
    /\ (required_balance <= balance ->
        result_of (ensure_sufficient_balance payments plan_did required_balance) w
        = Ok true)
    /\ (forall success,
        balance < required_balance ->
        order_plan payments (order_call plan_did required_balance balance (trace w))
        = Ok success ->
        result_of (ensure_sufficient_balance payments plan_did required_balance) w
        = Ok success)
    /\ (result_of (ensure_sufficient_balance payments plan_did required_balance) w
        = Ok false ->
        balance < required_balance
        /\ order_plan payments (order_call plan_did required_balance balance (trace w))
           = Ok false).
Proof.
  intros Hbal. unfold exec, result_of.
  destruct (Z.ltb_spec balance required_balance) as [Hlt|Hle].
  - rewrite (balance_short_order payments plan_did required_balance balance w Hbal
               _ Hlt eq_refl).
    unfold order_call, balance_call. rewrite <- ?app_assoc. cbn [app].
    destruct (order_plan payments _) as [[|]| |] eqn:Hord;
      eexists; (split; [cbn [snd]; try rewrite <- app_assoc; reflexivity|]);
      cbn [fst List.filter is_get_plan_balance length existsb is_order_plan orb];
      (repeat split; try reflexivity; try lia; try congruence;
       try (intros ? _ [=]; congruence)).
    all: unfold order_call, balance_call; rewrite <- ?app_assoc; cbn [app];
      try congruence.
  - rewrite (balance_enough payments plan_did required_balance balance w Hbal Hle).
    unfold balance_call. eexists. split; [reflexivity|].
    cbn. repeat split; try reflexivity; try lia; try congruence.
Qed.

Lemma ensure_sufficient_balance_spec_witness :
  result_of (ensure_sufficient_balance
               (sample_payments (sample_step "generateScript" "Pending" None)
                  0 true accepted (fun _ => JNull))
               "did:nv:plan" 1) (initial_world [])
  = Ok true.
Proof.
  destruct (ensure_sufficient_balance_spec
              (sample_payments (sample_step "generateScript" "Pending" None)
                 0 true accepted (fun _ => JNull))
              "did:nv:plan" 1 0 (initial_world []) eq_refl)
    as (new & _ & _ & _ & _ & H & _).
  apply H; [lia | reflexivity].
Defined.

(** ** The single-agent handler *)

(** C6: when the balance is below the one unit required and [order_plan]
    reports failure, [handle_step_with_agent] returns having made no store
    write: no task is created and the step is not updated. *)
Theorem handle_step_with_agent_stalls_without_balance (payments : Payments)
    (step : Step.t) (agent_did agent_name plan_did : string) (balance : Z) (w : World) :
  get_plan_balance payments (balance_call plan_did (trace w)) = Ok balance ->
  balance < 1 ->
  order_plan payments (order_call plan_did 1 balance (trace w)) = Ok false ->
  exists new,
    handle_step_with_agent payments step agent_did agent_name plan_did w
    = (Ok tt, set_trace (trace w ++ new) w)
    /\ List.filter is_store_write new = [].
Proof.
  intros Hbal Hlt Hord. unfold handle_step_with_agent.
  rewrite bind_eq,
    (balance_short_order payments plan_did 1 balance w Hbal _ Hlt Hord).
  cbn [negb]. unfold order_call, balance_call. rewrite <- !app_assoc. cbn [app].
  eexists. split; reflexivity.
Qed.

Lemma handle_step_with_agent_stalls_witness :
  exists new,
    handle_step_with_agent
      (sample_payments (sample_step "generateScript" "Pending" None) 0 false accepted
         (fun _ => JNull))
      (sample_step "generateScript" "Pending" None)
      "did:nv:script" "Script Generator" "did:nv:plan" (initial_world [])
    = (Ok tt, set_trace (trace (initial_world []) ++ new) (initial_world []))
    /\ List.filter is_store_write new = [].
Proof.
  apply (handle_step_with_agent_stalls_without_balance
           (sample_payments (sample_step "generateScript" "Pending" None)
              0 false accepted (fun _ => JNull))
           (sample_step "generateScript" "Pending" None)
           "did:nv:script" "Script Generator" "did:nv:plan" 0 (initial_world []));
    [reflexivity | lia | reflexivity].
Defined.

Lemma ai_create_task_eq payments agent_did task_data task_callback w :
  ai_create_task payments agent_did task_data task_callback w
  = (create_task payments
       (trace w ++ [EvCreateTask agent_did task_data (length (callbacks w))]),
     set_trace (trace w ++ [EvCreateTask agent_did task_data (length (callbacks w))])
       (set_callbacks (callbacks w ++ [task_callback]) w)).
Proof. reflexivity. Qed.

Lemma query_agent_with_prompt_rejected py env payments step prompt agent_name
    validate_task_fn result w :
  let task_data :=
    {| TaskData.query := prompt; TaskData.name := Step.name step;
       TaskData.additional_params := []; TaskData.artifacts := [] |} in
  let call_trace :=
    trace w ++ [EvCreateTask (IMAGE_GENERATOR_DID env) task_data (length (callbacks w))] in
  create_task payments call_trace = Ok result ->
  Response.status_code result <> Some 201 ->
  exists e,
    query_agent_with_prompt py env payments step prompt agent_name validate_task_fn w
    = (Raise e,
       set_trace call_trace
         (set_callbacks
            (callbacks w
             ++ [ImageTaskCallback step (length (futures w)) validate_task_fn])
            (set_futures (futures w ++ [FPending]) w)))
    /\ (forall code data,
        Response.status_code result = Some code ->
        Response.data result = Some data ->
        e = Exception ("Error creating task for " ++ agent_name ++ ": "
                       ++ str py data)).
Proof.
  cbn zeta. intros Hcreate Hcode. unfold query_agent_with_prompt.
  rewrite bind_eq. unfold create_future at 1. rewrite bind_eq, ai_create_task_eq.
  tidy. rewrite Hcreate. rewrite bind_eq. unfold lift at 1.
  destruct (Response.status_code result) as [code|] eqn:Hsc; cbn [from_option].
  - destruct (Z.eqb_spec code 201) as [->|Hne]; [congruence|]. cbn [negb].
    rewrite bind_eq. unfold lift.
    destruct (Response.data result) as [data|]; cbn [from_option].
    + eexists. split; [reflexivity|]. intros ? ? _ [= <-]. reflexivity.
    + eexists. split; [reflexivity|]. intros ? ? _ [=].
  - eexists. split; [reflexivity|]. intros ? ? [=].
Qed.

(** ** The fan-out join *)

Section Join.

Variable py : PyLib.
Variable env : Config.
Variable payments : Payments.

Lemma attempt_eq {A} (m : M A) w : attempt m w = (Ok (fst (m w)), snd (m w)).
Proof. unfold attempt. destruct (m w); reflexivity. Qed.

Lemma start_all_ok (tasks : list (M nat)) (w : World) :
  start_all tasks w = (Ok (started_of tasks w), exec (start_all tasks) w)
  /\ length (started_of tasks w) = length tasks.
Proof.
  assert (H : exists started w',
             start_all tasks w = (Ok started, w') /\ length started = length tasks).
  { revert w. induction tasks as [|t rest IH]; intros w.
    - exists [], w. split; reflexivity.
    - cbn [start_all]. rewrite bind_eq, attempt_eq.
      destruct (IH (snd (t w))) as (started & w' & Heq & Hlen).
      rewrite bind_eq, Heq. eexists _, _. split; [reflexivity|].
      cbn [length]. now rewrite Hlen. }
  destruct H as (started & w' & Heq & Hlen).
  unfold started_of, exec. rewrite Heq. split; [reflexivity | assumption].
Qed.

Lemma deliver_ok (d : nat * string) (w : World) :
  deliver py env payments d w = (Ok tt, exec (deliver py env payments d) w).
Proof.
  unfold exec, deliver. destruct (callbacks w !! d.1); [|reflexivity].
  destruct (run_closure _ _ _ _ _ _) as [[| |] w']; reflexivity.
Qed.

(** The join stops in a world whose futures justify its outcome. *)
Lemma await_all_poll (deliveries : list (nat * string)) (started : list (outcome nat))
    (w : World) :
  match await_all py env payments deliveries started w with
  | (Ok results, w') => poll started (futures w') = JoinDone results
  | (Raise e, w') => poll started (futures w') = JoinFailed e
  | (Blocked, w') => poll started (futures w') = JoinWaiting
  end.
Proof.
  revert w. induction deliveries as [|d rest IH]; intros w; cbn [await_all].
  - destruct (poll started (futures w)) eqn:Hp; assumption.
  - destruct (poll started (futures w)) eqn:Hp; try assumption.
    rewrite bind_eq, deliver_ok. apply IH.
Qed.

Lemma poll_done (started : list (outcome nat)) (fs : list future_state)
    (results : list json) :
  poll started fs = JoinDone results <-> Forall2 (resolved_with fs) started results.
Proof.
  revert results. induction started as [|r rest IH]; intros results; cbn [poll].
  - split.
    + intros [= <-]. constructor.
    + intros H. inversion H. reflexivity.
  - split.
    + intros H. destruct r as [f| |]; cbn in H.
      * destruct (fs !! f) as [[|a|e]|] eqn:Hf; cbn in H;
          destruct (poll rest fs) as [rs|e'|] eqn:Hp; try discriminate.
        injection H as <-. constructor; [exists f; auto|]. now apply IH.
      * destruct (poll rest fs); discriminate.
      * destruct (poll rest fs); discriminate.
    + intros H. inversion H as [|r' a rs' as' (f & -> & Hf) Hrest]; subst.
      cbn. rewrite Hf. cbn. apply IH in Hrest. rewrite Hrest. reflexivity.
Qed.

Lemma poll_failed (started : list (outcome nat)) (fs : list future_state) (f : nat)
    (e : exn) :
  In (Ok f) started -> fs !! f = Some (FException e) ->
  exists e', poll started fs = JoinFailed e'.
Proof.
  induction started as [|r rest IH]; intros Hin Hf; [destruct Hin|].
  cbn [poll]. destruct Hin as [->|Hin].
  - rewrite Hf. cbn. eauto.
  - destruct (IH Hin Hf) as [e' He']. rewrite He'.
    destruct r as [f'| |]; [destruct (from_option id FPending (fs !! f'))|..]; eauto.
Qed.

Lemma first_raise_none {A} (rs : list (outcome A)) :
  first_raise rs = None <-> forall e, ~ In (Raise e) rs.
Proof.
  induction rs as [|r rest IH]; cbn [first_raise In].
  - split; auto.
  - destruct r as [a|e|].
    + rewrite IH. split; intros H e'; [intros [[=]|?]; eapply H; eauto|].
      intros ?. eapply H; eauto.
    + split; [discriminate|]. intros H. exfalso. eapply H; eauto.
    + rewrite IH. split; intros H e'; [intros [[=]|?]; eapply H; eauto|].
      intros ?. eapply H; eauto.
Qed.

Lemma gather_eq (tasks : list (M nat)) (w : World) :
  gather py env payments tasks w
  = let w0 := exec (start_all tasks) w in
    match first_raise (started_of tasks w) with
    | Some e => (Raise e, w0)
    | None => await_all py env payments (inbox w0) (started_of tasks w) w0
    end.
Proof.
  unfold gather. rewrite bind_eq.
  destruct (start_all_ok tasks w) as [-> _]. cbn zeta.
  destruct (first_raise _); reflexivity.
Qed.

(** When every delegate resolved, [gather] returns their results in order. *)
Lemma gather_resolved (tasks : list (M nat)) (w : World) (artifacts : list json) :
  Forall2 (resolved_with (futures (exec (gather py env payments tasks) w)))
    (started_of tasks w) artifacts ->
  result_of (gather py env payments tasks) w = Ok artifacts.
Proof.
  unfold exec, result_of. rewrite gather_eq. cbn zeta. intros Hall.
  destruct (first_raise (started_of tasks w)) as [e|] eqn:Hfr.
  - exfalso. assert (Hnone : first_raise (started_of tasks w) = None).
    { apply first_raise_none. intros e' Hin.
      clear -Hall Hin. induction Hall as [|r a rs as' (f & -> & _) _ IH];
        [destruct Hin|]. destruct Hin as [[=]|Hin]; auto. }
    congruence.
  - pose proof (await_all_poll
                  (inbox (exec (start_all tasks) w)) (started_of tasks w)
                  (exec (start_all tasks) w)) as Hinv.
    destruct (await_all _ _ _ _ _ _) as [[results|e|] w']; cbn [fst snd] in *;
      apply poll_done in Hall; congruence.
Qed.

(** When some delegate failed, [gather] raises. *)
Lemma gather_failed (tasks : list (M nat)) (w : World) (e : exn) :
  delegate_failed (started_of tasks w)
    (futures (exec (gather py env payments tasks) w)) e ->
  exists e', result_of (gather py env payments tasks) w = Raise e'.
Proof.
  unfold exec, result_of. rewrite gather_eq. cbn zeta. intros Hfail.
  destruct (first_raise (started_of tasks w)) as [e0|] eqn:Hfr; [eauto|].
  destruct Hfail as [Hin|(f & Hin & Hf)].
  - exfalso. eapply first_raise_none; eauto.
  - pose proof (await_all_poll
                  (inbox (exec (start_all tasks) w)) (started_of tasks w)
                  (exec (start_all tasks) w)) as Hinv.
    destruct (poll_failed _ _ _ _ Hin Hf) as [e' He'].
    destruct (await_all _ _ _ _ _ _) as [[results|e1|] w']; cbn [fst snd] in *;
      [congruence | eauto | congruence].
Qed.

(** [image_tasks] keeps the order of the characters. *)
Lemma image_tasks_order (step : Step.t) (cs : list json) (tasks : list (M nat)) :
  image_tasks py env payments step cs = Ok tasks ->
  Forall2 (delegate_of py env payments step) cs tasks.
Proof.
  revert tasks. induction cs as [|c rest IH]; intros tasks; cbn [image_tasks].
  - intros [= <-]. constructor.
  - destruct (generate_text_to_image_prompt c) as [prompt| |] eqn:Hp;
      cbn [outcome_bind]; try discriminate.
    destruct (image_tasks py env payments step rest) as [ts| |];
      cbn [outcome_bind]; try discriminate.
    intros [= <-]. constructor; [exists prompt; auto | auto].
Qed.

Section JoinStatement.

Variable step : Step.t.
Variable tasks : list (M nat).
Variable w : World.
Hypothesis Hlog : reliable (log_task payments).
Hypothesis Hupdate : reliable (update_step payments).

Lemma join_image_tasks_completed (artifacts : list json) :
  result_of (gather py env payments tasks) w = Ok artifacts ->
  join_image_tasks py env payments step tasks w
  = (Ok tt,
     set_trace (trace (exec (gather py env payments tasks) w)
                ++ completed_events step artifacts)
       (exec (gather py env payments tasks) w)).
Proof.
  unfold result_of, exec, join_image_tasks, try_except. intros Hres.
  rewrite bind_eq. destruct (gather py env payments tasks w) as [r w1].
  cbn [fst snd] in *. subst r.
  rewrite bind_eq, log_message_eq. cbn zeta. rewrite Hlog, call_eq, Hupdate. tidy.
  reflexivity.
Qed.

Lemma join_image_tasks_failed (e : exn) :
  result_of (gather py env payments tasks) w = Raise e ->
  join_image_tasks py env payments step tasks w
  = (Ok tt,
     set_trace (trace (exec (gather py env payments tasks) w) ++ failed_events step e)
       (exec (gather py env payments tasks) w)).
Proof.
  unfold result_of, exec, join_image_tasks, try_except. intros Hres.
  rewrite bind_eq. destruct (gather py env payments tasks w) as [r w1].
  cbn [fst snd] in *. subst r.
  rewrite bind_eq, call_eq, Hupdate, log_message_eq. cbn zeta. rewrite Hlog. tidy.
  reflexivity.
Qed.

End JoinStatement.

Lemma handle_image_generation_launched (step : Step.t) (w wb : World) (cs : list json)
    (tasks : list (M nat)) :
  launches py env payments step w cs tasks wb ->
  handle_image_generation_for_characters py env payments step w
  = join_image_tasks py env payments step tasks wb.
Proof.
  intros (characters & characters_json & required & H1 & H2 & H3 & H4 & H5 & H6).
  unfold handle_image_generation_for_characters.
  rewrite bind_eq. unfold lift at 1. rewrite H1.
  rewrite bind_eq. unfold lift at 1. rewrite H2.
  rewrite bind_eq. unfold lift at 1. rewrite H3.
  rewrite bind_eq, H4. cbn [negb].
  rewrite bind_eq. unfold lift at 1. rewrite H5.
  rewrite bind_eq. unfold lift at 1. rewrite H6. reflexivity.
Qed.

End Join.

(** C1: once [handle_image_generation_for_characters] has launched its
    delegates, one per character and in the order of the characters: if
    every delegate resolves with artifacts, the step is updated to Completed
    with [output_artifacts] the delegates' artifacts in that order; if any
    delegate fails, the step is updated to Failed with the generic message and
    without any [output_artifacts]. *)
Theorem fan_out_join_all_or_nothing (py : PyLib) (env : Config) (payments : Payments)
    (step : Step.t) (w wb : World) (cs : list json) (tasks : list (M nat)) :
  reliable (log_task payments) ->
  reliable (update_step payments) ->
  launches py env payments step w cs tasks wb ->
  let started := started_of tasks wb in
  let w1 := exec (gather py env payments tasks) wb in
  Forall2 (delegate_of py env payments step) cs tasks
  /\ length started = length tasks
  /\ (forall artifacts,
      Forall2 (resolved_with (futures w1)) started artifacts ->
      handle_image_generation_for_characters py env payments step w
      = (Ok tt, set_trace (trace w1 ++ completed_events step artifacts) w1))
  /\ (forall e,
      delegate_failed started (futures w1) e ->
      exists e',
        handle_image_generation_for_characters py env payments step w
        = (Ok tt, set_trace (trace w1 ++ failed_events step e') w1)).
Proof.
  intros Hlog Hupdate Hlaunch started w1.
  rewrite (handle_image_generation_launched py env payments step w wb cs tasks Hlaunch).
  split; [|split; [|split]].
  - destruct Hlaunch as (? & ? & ? & _ & _ & _ & _ & _ & H).
    now apply image_tasks_order.
  - apply start_all_ok.
  - intros artifacts Hall.
    apply join_image_tasks_completed; auto. now apply gather_resolved.
  - intros e Hfail. destruct (gather_failed py env payments tasks wb e Hfail) as [e' He'].
    exists e'. apply join_image_tasks_failed; auto.
Qed.

Lemma sample_store_reliable step balance order_ok created task_of :
  reliable (log_task (sample_payments step balance order_ok created task_of))
  /\ reliable (update_step (sample_payments step balance order_ok created task_of)).
Proof. split; intros t; reflexivity. Qed.

Lemma image_step_launches (w : World) :
  launches sample_py sample_config (image_payments 5 true accepted) image_step
    w (map object_value sample_characters)
    (sample_delegates (image_payments 5 true accepted)) (after_balance_gate w).
Proof.
  exists (JStr characters_text), (JArr (map object_value sample_characters)), 3.
  repeat split; try reflexivity.
  apply (balance_enough _ _ _ 5); [reflexivity | lia].
Qed.

Lemma fan_out_join_witness :
  (exists e',
      handle_image_generation_for_characters sample_py sample_config
        (image_payments 5 true accepted) image_step second_fails
      = (Ok tt,
         set_trace
           (trace (exec (gather sample_py sample_config (image_payments 5 true accepted)
                           (sample_delegates (image_payments 5 true accepted)))
                     (after_balance_gate second_fails))
            ++ failed_events image_step e')
           (exec (gather sample_py sample_config (image_payments 5 true accepted)
                    (sample_delegates (image_payments 5 true accepted)))
              (after_balance_gate second_fails))))
  /\ handle_image_generation_for_characters sample_py sample_config
       (image_payments 5 true accepted) image_step all_complete
     = (Ok tt,
        set_trace
          (trace (exec (gather sample_py sample_config (image_payments 5 true accepted)
                          (sample_delegates (image_payments 5 true accepted)))
                    (after_balance_gate all_complete))
           ++ completed_events image_step
                [JArr [JStr "t0.png"]; JArr [JStr "t1.png"]; JArr [JStr "t2.png"]])
          (exec (gather sample_py sample_config (image_payments 5 true accepted)
                   (sample_delegates (image_payments 5 true accepted)))
             (after_balance_gate all_complete))).
Proof.
  pose proof (sample_store_reliable image_step 5 true accepted sample_task_of)
    as [Hlog Hupdate].
  split.
  - destruct (fan_out_join_all_or_nothing sample_py sample_config
                (image_payments 5 true accepted) image_step second_fails _ _ _
                Hlog Hupdate (image_step_launches second_fails))
      as (_ & _ & _ & Hfail).
    apply (Hfail (Exception "Sub-agent task failed")).
    right. exists 1%nat. split; vm_compute; auto.
  - destruct (fan_out_join_all_or_nothing sample_py sample_config
                (image_payments 5 true accepted) image_step all_complete _ _ _
                Hlog Hupdate (image_step_launches all_complete))
      as (_ & _ & Hdone & _).
    apply Hdone. repeat constructor.
    + exists 0%nat. split; reflexivity.
    + exists 1%nat. split; reflexivity.
    + exists 2%nat. split; reflexivity.
Defined.

(** ** The router *)

Section Router.

Variable py : PyLib.
Variable env : Config.
Variable payments : Payments.
Variables (data step_id : json) (w : World).
Hypothesis Hid : Py.getitem data "step_id" = Ok step_id.

Lemma run_get_step_raises (e : exn) :
  get_step payments (trace w ++ received_events py data step_id) = Raise e ->
  run py env payments data w
  = (Raise e, set_trace (trace w ++ received_events py data step_id) w).
Proof.
  unfold received_events. intros Hget. unfold run.
  rewrite bind_eq, logger_eq, bind_eq. unfold lift at 1. rewrite Hid.
  rewrite bind_eq, call_eq. tidy. rewrite Hget. reflexivity.
Qed.

Lemma run_gate (step : Step.t) :
  get_step payments (trace w ++ received_events py data step_id) = Ok step ->
  run py env payments data w
  = match log_task payments (trace w ++ gate_events py data step_id step) with
    | Ok _ =>
        (if negb (String.eqb (Step.step_status step) "Pending")
         then emit (skipping_event step)
         else dispatch py env payments step)
          (set_trace (trace w ++ gate_events py data step_id step) w)
    | Raise e => (Raise e, set_trace (trace w ++ gate_events py data step_id step) w)
    | Blocked => (Blocked, set_trace (trace w ++ gate_events py data step_id step) w)
    end.
Proof.
  unfold gate_events, received_events. intros Hget. unfold run.
  rewrite bind_eq, logger_eq, bind_eq. unfold lift at 1. rewrite Hid.
  rewrite bind_eq, call_eq. tidy. rewrite Hget.
  rewrite bind_eq, log_message_eq. cbn zeta. tidy.
  destruct (log_task payments _); reflexivity.
Qed.

End Router.

(** C2: when the loaded step is not Pending, [run] stops at its gate: its
    trace is the receipt, the [get_step] call, the processing log and the
    skipping warning, so no handler runs and no [create_steps], [update_step]
    or [create_task] call is made; this covers the repeated notification of a
    step that is already Completed. *)
Theorem run_discards_non_pending (py : PyLib) (env : Config) (payments : Payments)
    (data step_id : json) (step : Step.t) (w : World) :
  Py.getitem data "step_id" = Ok step_id ->
  get_step payments (trace w ++ received_events py data step_id) = Ok step ->
  Step.step_status step <> "Pending" ->
  exists new,
    exec (run py env payments data) w = set_trace (trace w ++ new) w
    /\ List.filter is_store_write new = []
    /\ (new = gate_events py data step_id step ++ [skipping_event step]
        \/ new = gate_events py data step_id step)
    /\ (log_task payments (trace w ++ gate_events py data step_id step) = Ok tt ->
        run py env payments data w
        = (Ok tt,
           set_trace (trace w ++ gate_events py data step_id step
                      ++ [skipping_event step]) w)).
Proof.
  intros Hid Hget Hstatus. unfold exec.
  rewrite (run_gate py env payments data step_id w Hid step Hget).
  destruct (String.eqb_spec (Step.step_status step) "Pending") as [|_]; [contradiction|].
  cbn [negb]. unfold emit. tidy.
  destruct (log_task payments _) as [[]| |] eqn:Hlog; cbn [snd].
  - exists (gate_events py data step_id step ++ [skipping_event step]).
    rewrite app_assoc. repeat split; auto.
  - exists (gate_events py data step_id step). repeat split; auto. discriminate.
  - exists (gate_events py data step_id step). repeat split; auto. discriminate.
Qed.

Lemma run_discards_non_pending_witness :
  run sample_py sample_config
    (sample_payments (sample_step "generateScript" "Completed" None) 5 true accepted
       (fun _ => JNull))
    notification (initial_world [])
  = (Ok tt,
     set_trace
       (trace (initial_world [])
        ++ gate_events sample_py notification (JStr "step-1")
             (sample_step "generateScript" "Completed" None)
        ++ [skipping_event (sample_step "generateScript" "Completed" None)])
       (initial_world [])).
Proof.
  destruct (run_discards_non_pending sample_py sample_config
              (sample_payments (sample_step "generateScript" "Completed" None) 5 true
                 accepted (fun _ => JNull))
              notification (JStr "step-1")
              (sample_step "generateScript" "Completed" None) (initial_world []))
    as (new & _ & _ & _ & H); [reflexivity | reflexivity | discriminate |].
  apply H. reflexivity.
Defined.

(** C3, as amended: [run] has no exception boundary of its own.  An error
    raised by [get_step] leaves [run] as it is, after the receipt log line
    only; and for a Pending step the outcome of [run] is the outcome of the
    dispatched handler, whatever the handler does. *)
Theorem run_propagates_errors (py : PyLib) (env : Config) (payments : Payments)
    (data step_id : json) (w : World) :
  Py.getitem data "step_id" = Ok step_id ->
  (forall e,
      get_step payments (trace w ++ received_events py data step_id) = Raise e ->
      run py env payments data w
      = (Raise e, set_trace (trace w ++ received_events py data step_id) w))
  /\ (forall step,
      get_step payments (trace w ++ received_events py data step_id) = Ok step ->
      log_task payments (trace w ++ gate_events py data step_id step) = Ok tt ->
      Step.step_status step = "Pending" ->
      run py env payments data w
      = dispatch py env payments step
          (set_trace (trace w ++ gate_events py data step_id step) w)).
Proof.
  intros Hid. split.
  - intros e. now apply run_get_step_raises.
  - intros step Hget Hlog Hstatus.
    rewrite (run_gate py env payments data step_id w Hid step Hget), Hlog, Hstatus.
    reflexivity.
Qed.

Lemma run_propagates_errors_witness :
  run sample_py sample_config
    (unreachable (sample_payments (sample_step "init" "Pending" None) 5 true accepted
                    (fun _ => JNull)))
    notification (initial_world [])
  = (Raise (RemoteError "step store unreachable"),
     set_trace (trace (initial_world [])
                ++ received_events sample_py notification (JStr "step-1"))
       (initial_world []))
  /\ run sample_py sample_config
       (sample_payments (sample_step "init" "Pending" None) 5 true accepted
          (fun _ => JNull))
       notification (initial_world [])
     = dispatch sample_py sample_config
         (sample_payments (sample_step "init" "Pending" None) 5 true accepted
            (fun _ => JNull))
         (sample_step "init" "Pending" None)
         (set_trace (trace (initial_world [])
                     ++ gate_events sample_py notification (JStr "step-1")
                          (sample_step "init" "Pending" None))
            (initial_world [])).
Proof.
  split.
  - apply (run_propagates_errors sample_py sample_config
             (unreachable (sample_payments (sample_step "init" "Pending" None) 5 true
                             accepted (fun _ => JNull)))
             notification (JStr "step-1") (initial_world []) eq_refl).
    reflexivity.
  - apply (run_propagates_errors sample_py sample_config
             (sample_payments (sample_step "init" "Pending" None) 5 true accepted
                (fun _ => JNull))
             notification (JStr "step-1") (initial_world []) eq_refl);
      reflexivity.
Defined.

(** C3 as stated fails: with an unreachable step store [run] raises to its
    caller and writes no error log; and a Pending image step without
    [input_artifacts] makes the handler, and with it [run], raise. *)
Lemma run_lets_errors_escape :
  run sample_py sample_config
    (unreachable (sample_payments (sample_step "init" "Pending" None) 5 true accepted
                    (fun _ => JNull)))
    notification (initial_world [])
  = (Raise (RemoteError "step store unreachable"),
     set_trace [EvLogger "info" "Received event: {...}"; EvGetStep (JStr "step-1")]
       (initial_world []))
  /\ result_of
       (run sample_py sample_config
          (sample_payments (sample_step "generateImagesForCharacters" "Pending" None)
             5 true accepted (fun _ => JNull))
          notification)
       (initial_world [])
     = Raise TypeError.
Proof. split; reflexivity. Qed.

(** ** The failure boundary of the image handler *)

(** C4, as amended: the [try] statement of
    [handle_image_generation_for_characters] covers the join only.  An
    exception raised by [gather] is caught: the step is updated to Failed and
    an error is logged.  A failure to parse [input_artifacts] and a balance
    shortfall come before the [try] statement and leave the handler as
    exceptions, without any step update. *)
Theorem image_handler_failure_boundary (py : PyLib) (env : Config) (payments : Payments)
    (step : Step.t) (w : World) :
  (forall e,
      loads py (from_option id (JStr "[]") (Step.input_artifacts step)) = Raise e ->
      handle_image_generation_for_characters py env payments step w = (Raise e, w))
  /\ (forall characters e,
      loads py (from_option id (JStr "[]") (Step.input_artifacts step)) = Ok characters ->
      loads py characters = Raise e ->
      handle_image_generation_for_characters py env payments step w = (Raise e, w))
  /\ (forall characters characters_json required balance,
      loads py (from_option id (JStr "[]") (Step.input_artifacts step)) = Ok characters ->
      loads py characters = Ok characters_json ->
      Py.len characters_json = Ok required ->
      get_plan_balance payments
        (balance_call (IMAGE_GENERATOR_PLAN_DID env) (trace w)) = Ok balance ->
      balance < required ->
      order_plan payments
        (order_call (IMAGE_GENERATOR_PLAN_DID env) required balance (trace w))
      = Ok false ->
      exists new,
        handle_image_generation_for_characters py env payments step w
        = (Raise (Exception "Insufficient balance for image generation tasks."),
           set_trace (trace w ++ new) w)
        /\ List.filter is_store_write new = [])
  /\ (forall cs tasks wb e,
      reliable (log_task payments) ->
      reliable (update_step payments) ->
      launches py env payments step w cs tasks wb ->
      result_of (gather py env payments tasks) wb = Raise e ->
      handle_image_generation_for_characters py env payments step w
      = (Ok tt,
         set_trace (trace (exec (gather py env payments tasks) wb)
                    ++ failed_events step e)
           (exec (gather py env payments tasks) wb))).
Proof.
  split; [|split; [|split]].
  - intros e H1. unfold handle_image_generation_for_characters.
    rewrite bind_eq. unfold lift at 1. rewrite H1. reflexivity.
  - intros characters e H1 H2. unfold handle_image_generation_for_characters.
    rewrite bind_eq. unfold lift at 1. rewrite H1.
    rewrite bind_eq. unfold lift at 1. rewrite H2. reflexivity.
  - intros characters characters_json required balance H1 H2 H3 Hbal Hlt Hord.
    unfold handle_image_generation_for_characters.
    rewrite bind_eq. unfold lift at 1. rewrite H1.
    rewrite bind_eq. unfold lift at 1. rewrite H2.
    rewrite bind_eq. unfold lift at 1. rewrite H3.
    rewrite bind_eq,
      (balance_short_order payments _ required balance w Hbal _ Hlt Hord).
    cbn [negb]. unfold raise, order_call, balance_call.
    rewrite <- !app_assoc. cbn [app]. eexists. split; reflexivity.
  - intros cs tasks wb e Hlog Hupdate Hlaunch Hraise.
    rewrite (handle_image_generation_launched py env payments step w wb cs tasks Hlaunch).
    now apply join_image_tasks_failed.
Qed.

Lemma image_handler_failure_boundary_witness :
  (exists new,
      handle_image_generation_for_characters sample_py sample_config
        (image_payments 0 false accepted) image_step (initial_world [])
      = (Raise (Exception "Insufficient balance for image generation tasks."),
         set_trace (trace (initial_world []) ++ new) (initial_world []))
      /\ List.filter is_store_write new = [])
  /\ handle_image_generation_for_characters sample_py sample_config
       (image_payments 5 true accepted) image_step second_fails
     = (Ok tt,
        set_trace
          (trace (exec (gather sample_py sample_config (image_payments 5 true accepted)
                          (sample_delegates (image_payments 5 true accepted)))
                    (after_balance_gate second_fails))
           ++ failed_events image_step (Exception "Sub-agent task failed"))
          (exec (gather sample_py sample_config (image_payments 5 true accepted)
                   (sample_delegates (image_payments 5 true accepted)))
             (after_balance_gate second_fails))).
Proof.
  split.
  - destruct (image_handler_failure_boundary sample_py sample_config
                (image_payments 0 false accepted) image_step (initial_world []))
      as (_ & _ & Hshort & _).
    apply (Hshort (JStr characters_text) (JArr (map object_value sample_characters))
             3 0);
      [reflexivity | reflexivity | reflexivity | reflexivity | lia | reflexivity].
  - destruct (image_handler_failure_boundary sample_py sample_config
                (image_payments 5 true accepted) image_step second_fails)
      as (_ & _ & _ & Hjoin).
    apply (Hjoin (map object_value sample_characters)
             (sample_delegates (image_payments 5 true accepted))
             (after_balance_gate second_fails));
      [apply sample_store_reliable | apply sample_store_reliable
      | apply image_step_launches | reflexivity].
Defined.

(** C4 as stated fails: a balance shortfall leaves the handler as an
    exception and the step is not updated; so does [input_artifacts] that
    cannot be parsed. *)
Lemma image_handler_lets_errors_escape :
  (result_of (handle_image_generation_for_characters sample_py sample_config
                (image_payments 0 false accepted) image_step) (initial_world [])
   = Raise (Exception "Insufficient balance for image generation tasks.")
   /\ List.filter is_store_write
        (trace (exec (handle_image_generation_for_characters sample_py sample_config
                        (image_payments 0 false accepted) image_step)
                  (initial_world [])))
      = [])
  /\ handle_image_generation_for_characters sample_py sample_config
       (image_payments 5 true accepted)
       (sample_step "generateImagesForCharacters" "Pending" (Some (JStr "not json")))
       (initial_world [])
     = (Raise JSONDecodeError, initial_world []).
Proof. repeat split; reflexivity. Qed.

(** ** The init handler *)

(** C5: [handle_init_step] makes exactly two store writes.  The first is one
    [create_steps] call with three steps named generateScript,
    extractCharacters and generateImagesForCharacters, the first preceded by
    the init step and each next one by the step before it, and only the last
    with [is_last] true; the second is the [update_step] call that marks the
    init step Completed with its [input_query] as output. *)
Theorem handle_init_step_spec (payments : Payments) (step : Step.t) (w : World) :
  reliable (create_steps payments) ->
  reliable (log_task payments) ->
  exists script_step_id character_step_id image_step_id new,
    handle_init_step payments step w
    = (update_step payments (trace w ++ new), set_trace (trace w ++ new) w)
    /\ List.filter is_store_write new
       = [EvCreateSteps (Step.did step) (Step.task_id step)
            [ {| NewStep.step_id := script_step_id;
                 NewStep.task_id := Step.task_id step;
                 NewStep.predecessor := Step.step_id step;
                 NewStep.name := "generateScript";
                 NewStep.is_last := false |};
              {| NewStep.step_id := character_step_id;
                 NewStep.task_id := Step.task_id step;
                 NewStep.predecessor := script_step_id;
                 NewStep.name := "extractCharacters";
                 NewStep.is_last := false |};
              {| NewStep.step_id := image_step_id;
                 NewStep.task_id := Step.task_id step;
                 NewStep.predecessor := character_step_id;
                 NewStep.name := "generateImagesForCharacters";
                 NewStep.is_last := true |} ];
          EvUpdateStep (Step.did step) (Step.task_id step) (Step.step_id step)
            {| StepPatch.step_status := "Completed";
               StepPatch.output := JStr (Step.input_query step);
               StepPatch.output_artifacts := None |}].
Proof.
  intros Hcreate Hlog. unfold handle_init_step, next_step_id.
  rewrite bind_eq, call_eq. tidy.
  rewrite bind_eq, call_eq. tidy.
  rewrite bind_eq, call_eq. tidy.
  rewrite bind_eq, call_eq, Hcreate. tidy.
  rewrite bind_eq, log_message_eq. cbn zeta. rewrite Hlog. tidy.
  rewrite call_eq. tidy.
  eexists _, _, _, _. split; reflexivity.
Qed.

Lemma handle_init_step_witness :
  exists script_step_id character_step_id image_step_id,
    List.filter is_store_write
      (trace (exec (handle_init_step
                      (sample_payments (sample_step "init" "Pending" None) 5 true
                         accepted (fun _ => JNull))
                      (sample_step "init" "Pending" None))
                (initial_world [])))
    = [EvCreateSteps "did:nv:this" "task-1"
         [ {| NewStep.step_id := script_step_id; NewStep.task_id := "task-1";
              NewStep.predecessor := "step-1"; NewStep.name := "generateScript";
              NewStep.is_last := false |};
           {| NewStep.step_id := character_step_id; NewStep.task_id := "task-1";
              NewStep.predecessor := script_step_id;
              NewStep.name := "extractCharacters"; NewStep.is_last := false |};
           {| NewStep.step_id := image_step_id; NewStep.task_id := "task-1";
              NewStep.predecessor := character_step_id;
              NewStep.name := "generateImagesForCharacters";
              NewStep.is_last := true |} ];
       EvUpdateStep "did:nv:this" "task-1" "step-1"
         {| StepPatch.step_status := "Completed";
            StepPatch.output := JStr "a movie about a lighthouse";
            StepPatch.output_artifacts := None |}].
Proof.
  destruct (sample_store_reliable (sample_step "init" "Pending" None) 5 true accepted
              (fun _ => JNull)) as [Hlog _].
  destruct (handle_init_step_spec
              (sample_payments (sample_step "init" "Pending" None) 5 true accepted
                 (fun _ => JNull))
              (sample_step "init" "Pending" None) (initial_world []))
    as (id1 & id2 & id3 & new & Heq & Hwrites);
    [intros t; reflexivity | exact Hlog |].
  exists id1, id2, id3. unfold exec. rewrite Heq. exact Hwrites.
Defined.

(** ** Rejected task creation *)

(** C9: when [create_task] answers with a status code other than 201,
    [handle_step_with_agent] only logs an error (no step update, nothing
    raised by the handler), whereas [query_agent_with_prompt] raises before
    its future is awaited, and the join that holds it raises with it. *)
Theorem task_creation_rejection_asymmetry (py : PyLib) (env : Config)
    (payments : Payments) (step : Step.t)
    (agent_did agent_name plan_did prompt delegate_name : string)
    (result : Response.t) :
  from_option id 0 (Response.status_code result) <> 201 ->
  (forall w w1,
      ensure_sufficient_balance payments plan_did 1 w = (Ok true, w1) ->
      let task_data :=
        {| TaskData.query := Step.input_query step; TaskData.name := Step.name step;
           TaskData.additional_params := []; TaskData.artifacts := [] |} in
      let message :=
        ("Error creating task for " ++ agent_name ++ ": " ++ Response.repr result)%string in
      let t :=
        trace w1
        ++ [EvCreateTask agent_did task_data (length (callbacks w1));
            EvLogger "error" (Step.task_id step ++ " :: " ++ message)%string;
            EvLogTask {| TaskLog.task_id := Step.task_id step; TaskLog.level := "error";
                         TaskLog.message := message;
                         TaskLog.task_status := Some Failed |}] in
      create_task payments
        (trace w1 ++ [EvCreateTask agent_did task_data (length (callbacks w1))])
      = Ok result ->
      handle_step_with_agent payments step agent_did agent_name plan_did w
      = (log_task payments t,
         set_trace t
           (set_callbacks (callbacks w1 ++ [GenericTaskCallback step agent_did]) w1)))
  /\ (forall w,
      let task_data :=
        {| TaskData.query := prompt; TaskData.name := Step.name step;
           TaskData.additional_params := []; TaskData.artifacts := [] |} in
      create_task payments
        (trace w
         ++ [EvCreateTask (IMAGE_GENERATOR_DID env) task_data (length (callbacks w))])
      = Ok result ->
      exists e,
        result_of (query_agent_with_prompt py env payments step prompt delegate_name
                     ValidateImageGenerationTask) w
        = Raise e
        /\ futures (exec (query_agent_with_prompt py env payments step prompt delegate_name
                            ValidateImageGenerationTask) w)
           = futures w ++ [FPending]
        /\ result_of (gather py env payments
                        [query_agent_with_prompt py env payments step prompt delegate_name
                           ValidateImageGenerationTask]) w
           = Raise e).
Proof.
  intros Hcode. split.
  - intros w w1 Hbal task_data message t Hcreate. unfold handle_step_with_agent.
    rewrite bind_eq, Hbal. cbn [negb].
    rewrite bind_eq, ai_create_task_eq. tidy. fold task_data. rewrite Hcreate.
    destruct (Z.eqb_spec (from_option id 0 (Response.status_code result)) 201);
      [contradiction|].
    rewrite log_message_eq. cbn zeta. tidy. reflexivity.
  - intros w task_data Hcreate.
    assert (Hsc : Response.status_code result <> Some 201).
    { intros Heq. rewrite Heq in Hcode. now apply Hcode. }
    destruct (query_agent_with_prompt_rejected py env payments step prompt delegate_name
                ValidateImageGenerationTask result w Hcreate Hsc) as (e & Heq & _).
    exists e. unfold result_of, exec. rewrite gather_eq. unfold started_of, exec.
    cbn [start_all]. rewrite !bind_eq, attempt_eq, Heq. cbn. auto.
Qed.

Lemma task_creation_rejection_witness :
  result_of (handle_step_with_agent
               (sample_payments (sample_step "generateScript" "Pending" None) 5 true
                  rejected (fun _ => JNull))
               (sample_step "generateScript" "Pending" None)
               "did:nv:script" "Script Generator" "did:nv:plan")
    (initial_world [])
  = Ok tt
  /\ exists e,
      result_of (query_agent_with_prompt sample_py sample_config
                   (sample_payments (sample_step "generateScript" "Pending" None) 5 true
                      rejected (fun _ => JNull))
                   (sample_step "generateScript" "Pending" None) "red"
                   "Image Generator" ValidateImageGenerationTask)
        (initial_world [])
      = Raise e.
Proof.
  destruct (task_creation_rejection_asymmetry sample_py sample_config
              (sample_payments (sample_step "generateScript" "Pending" None) 5 true
                 rejected (fun _ => JNull))
              (sample_step "generateScript" "Pending" None)
              "did:nv:script" "Script Generator" "did:nv:plan" "red" "Image Generator"
              rejected)
    as [Hlogged Hraised]; [cbn; lia|].
  split.
  - unfold result_of.
    rewrite (Hlogged (initial_world [])
               (set_trace (balance_call "did:nv:plan" []) (initial_world [])));
      reflexivity.
  - destruct (Hraised (initial_world [])) as (e & He & _); [reflexivity|].
    exists e. exact He.
Defined.

(** ** The future of a delegate *)

Section Future.

Variable py : PyLib.
Variable env : Config.
Variable payments : Payments.

Lemma quiet_bind {A B} (m : M A) (k : A -> M B) :
  quiet m -> (forall a, quiet (k a)) -> quiet (m ≫= k).
Proof.
  intros Hm Hk w. unfold exec. rewrite bind_eq.
  specialize (Hm w). unfold exec in Hm.
  destruct (m w) as [[a|e|] w1]; cbn [snd] in *; auto.
  rewrite <- Hm. apply Hk.
Qed.

Lemma quiet_lift {A} (r : outcome A) : quiet (lift r).
Proof. intros w. reflexivity. Qed.

Lemma quiet_emit (ev : Event) : quiet (emit ev).
Proof. intros w. reflexivity. Qed.

Lemma quiet_call {A} (ev : Event) (answer : list Event -> outcome A) :
  quiet (call ev answer).
Proof. intros w. reflexivity. Qed.

Lemma quiet_log_message task_id level message task_status :
  quiet (log_message payments task_id level message task_status).
Proof. apply quiet_bind; [apply quiet_emit | intros _; apply quiet_call]. Qed.

Lemma quiet_log_message_value task_id level message task_status :
  quiet (log_message_value py payments task_id level message task_status).
Proof.
  destruct message; try apply quiet_log_message;
    (apply quiet_bind; [apply quiet_emit | intros _ w; reflexivity]).
Qed.

Lemma log_message_value_str task_id level (message : string) task_status :
  log_message_value py payments task_id level (JStr message) task_status
  = log_message payments task_id level message task_status.
Proof. reflexivity. Qed.

Lemma quiet_run_validator validate_task_fn task_id :
  quiet (run_validator env payments validate_task_fn task_id).
Proof.
  destruct validate_task_fn. unfold run_validator, validate_image_generation_task.
  apply quiet_bind; [apply quiet_call|]. intros task_json.
  apply quiet_bind; [apply quiet_lift|]. intros task. apply quiet_lift.
Qed.

Lemma settle_once (f : nat) (s : future_state) :
  s <> FPending -> settles_at_most_once f (settle f s).
Proof.
  intros Hs w. unfold exec, result_of, settle.
  destruct (futures w !! f) as [[| |]|] eqn:Hf; cbn [fst snd]; auto.
  right. repeat split; eauto.
Qed.

Lemma quiet_settles {A} (f : nat) (m : M A) (k : A -> M unit) :
  quiet m -> (forall a, settles_at_most_once f (k a)) ->
  settles_at_most_once f (m ≫= k).
Proof.
  intros Hm Hk w. unfold exec, result_of. rewrite bind_eq.
  specialize (Hm w). unfold exec in Hm.
  destruct (m w) as [[a|e|] w1]; cbn [snd] in *; auto.
  specialize (Hk a w1). unfold exec, result_of in Hk. rewrite Hm in Hk. exact Hk.
Qed.

Lemma quiet_settles_nothing (f : nat) (m : M unit) :
  quiet m -> settles_at_most_once f m.
Proof. intros Hm w. left. apply Hm. Qed.

Lemma image_task_callback_once (step : Step.t) (f : nat) (validate_task_fn : Validator)
    (data : string) :
  settles_at_most_once f
    (image_task_callback py env payments step f validate_task_fn data).
Proof.
  unfold image_task_callback.
  apply quiet_settles; [apply quiet_lift|]. intros task_log.
  apply quiet_settles; [apply quiet_emit|]. intros _.
  apply quiet_settles; [apply quiet_lift|]. intros task_status.
  destruct (is_str task_status (status_value Completed)).
  { apply quiet_settles; [apply quiet_lift|]. intros task_id.
    apply quiet_settles; [apply quiet_run_validator|]. intros artifacts.
    apply quiet_settles; [apply quiet_emit|]. intros _.
    apply settle_once. discriminate. }
  destruct (is_str task_status (status_value Failed)).
  { apply quiet_settles; [apply quiet_lift|]. intros message.
    apply quiet_settles; [apply quiet_log_message_value|]. intros _.
    apply quiet_settles; [apply quiet_lift|]. intros task_id.
    apply quiet_settles; [apply quiet_emit|]. intros _.
    apply settle_once. discriminate. }
  apply quiet_settles_nothing.
  apply quiet_bind; [apply quiet_emit|]. intros _.
  apply quiet_bind; [apply quiet_lift|]. intros message.
  apply quiet_log_message_value.
Qed.

End Future.

(** C7, as amended: an invocation of the delegate's callback either leaves
    every future alone or settles the delegate's pending future, once.  A
    non-terminal signal never settles it.  A Completed signal that names its
    task settles a pending future with the validated artifacts once the
    validation returns.  A Failed signal with a string message and a task id
    settles a pending future with a failure once its error log is sent; with
    a message that is not a string the callback raises [ValidationError] and
    the future stays as it was.  When the future is already settled, such a
    terminal signal leaves its value as it is, and the callback raises
    [InvalidStateError]. *)
Theorem task_future_single_assignment (py : PyLib) (env : Config) (payments : Payments)
    (step : Step.t) (f : nat) (validate_task_fn : Validator) :
  (forall data,
      settles_at_most_once f
        (image_task_callback py env payments step f validate_task_fn data))
  /\ (forall data w task_log task_status,
      json_loads py data = Ok task_log ->
      Py.get task_log "task_status" JNull = Ok task_status ->
      is_str task_status "Completed" = false ->
      is_str task_status "Failed" = false ->
      futures (exec (image_task_callback py env payments step f validate_task_fn data) w)
      = futures w)
  /\ (forall data w task_log task_status task_id artifacts,
      json_loads py data = Ok task_log ->
      Py.get task_log "task_status" JNull = Ok task_status ->
      is_str task_status "Completed" = true ->
      Py.getitem task_log "task_id" = Ok task_id ->
      result_of (run_validator env payments validate_task_fn task_id)
        (set_trace (trace w ++ [EvPrint "RECIBIENDO EVENTO TASK LOG:::"]) w)
      = Ok artifacts ->
      result_of (image_task_callback py env payments step f validate_task_fn data) w
      = match futures w !! f with
        | Some FPending => Ok tt
        | _ => Raise InvalidStateError
        end
      /\ futures (exec (image_task_callback py env payments step f validate_task_fn data)
                    w)
         = match futures w !! f with
           | Some FPending => <[f := FResult artifacts]> (futures w)
           | _ => futures w
           end)
  /\ (forall data w task_log task_status message task_id,
      reliable (log_task payments) ->
      json_loads py data = Ok task_log ->
      Py.get task_log "task_status" JNull = Ok task_status ->
      is_str task_status "Completed" = false ->
      is_str task_status "Failed" = true ->
      Py.getitem task_log "message" = Ok (JStr message) ->
      Py.getitem task_log "task_id" = Ok task_id ->
      result_of (image_task_callback py env payments step f validate_task_fn data) w
      = match futures w !! f with
        | Some FPending => Ok tt
        | _ => Raise InvalidStateError
        end
      /\ futures (exec (image_task_callback py env payments step f validate_task_fn data)
                    w)
         = match futures w !! f with
           | Some FPending =>
               <[f := FException (Exception "Sub-agent task failed")]> (futures w)
           | _ => futures w
           end)
  /\ (forall data w task_log task_status message,
      json_loads py data = Ok task_log ->
      Py.get task_log "task_status" JNull = Ok task_status ->
      is_str task_status "Completed" = false ->
      is_str task_status "Failed" = true ->
      Py.getitem task_log "message" = Ok message ->
      (forall s, message <> JStr s) ->
      result_of (image_task_callback py env payments step f validate_task_fn data) w
      = Raise ValidationError
      /\ futures (exec (image_task_callback py env payments step f validate_task_fn data)
                    w)
         = futures w).
Proof.
  split; [|split; [|split; [|split]]].
  - intros data. apply image_task_callback_once.
  - intros data w task_log task_status Hloads Hget Hc Hf.
    unfold exec, image_task_callback.
    rewrite bind_eq. unfold lift at 1. rewrite Hloads.
    rewrite bind_eq. unfold print at 1, emit at 1.
    rewrite bind_eq. unfold lift at 1. rewrite Hget.
    cbn [status_value]. rewrite Hc, Hf.
    match goal with
    | |- futures (snd (?m ?w1)) = _ => assert (Hq : quiet m); [|exact (Hq w1)]
    end.
    apply quiet_bind; [apply quiet_emit|]. intros _.
    apply quiet_bind; [apply quiet_lift|]. intros message.
    apply quiet_log_message_value.
  - intros data w task_log task_status task_id artifacts Hloads Hget Hc Hid Hval.
    assert (exists w3,
               image_task_callback py env payments step f validate_task_fn data w
               = (match futures w !! f with
                  | Some FPending => Ok tt
                  | _ => Raise InvalidStateError
                  end, w3)
               /\ futures w3
                  = match futures w !! f with
                    | Some FPending => <[f := FResult artifacts]> (futures w)
                    | _ => futures w
                    end) as (w3 & Heq & Hfut).
    { unfold image_task_callback.
      rewrite bind_eq. unfold lift at 1. rewrite Hloads.
      rewrite bind_eq. unfold print at 1, emit at 1.
      rewrite bind_eq. unfold lift at 1. rewrite Hget.
      cbn [status_value]. rewrite Hc.
      rewrite bind_eq. unfold lift at 1. rewrite Hid. rewrite bind_eq.
      pose proof (quiet_run_validator env payments validate_task_fn task_id
                    (set_trace (trace w ++ [EvPrint "RECIBIENDO EVENTO TASK LOG:::"]) w))
        as Hquiet.
      unfold result_of in Hval. unfold exec in Hquiet.
      destruct (run_validator env payments validate_task_fn task_id _) as [r w2].
      cbn [fst snd trace set_trace futures] in *. subst r.
      rewrite bind_eq. unfold print, emit, set_result, settle. tidy. rewrite Hquiet.
      destruct (futures w !! f) as [[| |]|]; eexists; split; try reflexivity;
        cbn [futures set_futures set_trace]; auto. }
    unfold result_of, exec. rewrite Heq. auto.
  - intros data w task_log task_status message task_id Hlog Hloads Hget Hc Hf Hmsg Hid.
    assert (exists w3,
               image_task_callback py env payments step f validate_task_fn data w
               = (match futures w !! f with
                  | Some FPending => Ok tt
                  | _ => Raise InvalidStateError
                  end, w3)
               /\ futures w3
                  = match futures w !! f with
                    | Some FPending =>
                        <[f := FException (Exception "Sub-agent task failed")]>
                          (futures w)
                    | _ => futures w
                    end) as (w3 & Heq & Hfut).
    { unfold image_task_callback.
      rewrite bind_eq. unfold lift at 1. rewrite Hloads.
      rewrite bind_eq. unfold print at 1, emit at 1.
      rewrite bind_eq. unfold lift at 1. rewrite Hget.
      cbn [status_value]. rewrite Hc, Hf.
      rewrite bind_eq. unfold lift at 1. rewrite Hmsg.
      rewrite bind_eq, log_message_value_str, log_message_eq. cbn zeta. rewrite Hlog.
      rewrite bind_eq. unfold lift at 1. rewrite Hid.
      rewrite bind_eq. unfold print, emit, set_exception, settle. tidy.
      destruct (futures w !! f) as [[| |]|]; eexists; split; try reflexivity;
        cbn [futures set_futures set_trace]; auto. }
    unfold result_of, exec. rewrite Heq. auto.
  - intros data w task_log task_status message Hloads Hget Hc Hf Hmsg Hnot.
    assert (exists w3,
               image_task_callback py env payments step f validate_task_fn data w
               = (Raise ValidationError, w3)
               /\ futures w3 = futures w) as (w3 & Heq & Hfut).
    { unfold image_task_callback.
      rewrite bind_eq. unfold lift at 1. rewrite Hloads.
      rewrite bind_eq. unfold print at 1, emit at 1.
      rewrite bind_eq. unfold lift at 1. rewrite Hget.
      cbn [status_value]. rewrite Hc, Hf.
      rewrite bind_eq. unfold lift at 1. rewrite Hmsg. rewrite bind_eq.
      destruct message; try (eexists; split; reflexivity).
      exfalso. now apply (Hnot s). }
    unfold result_of, exec. rewrite Heq. auto.
Qed.

Lemma task_future_single_assignment_witness :
  futures (exec (image_task_callback sample_py sample_config
                   (image_payments 5 true accepted) image_step 0
                   ValidateImageGenerationTask (object_text (completed_event "t0")))
             one_delegate)
  = [FResult (JArr [JStr "t0.png"])]
  /\ futures (exec (image_task_callback sample_py sample_config
                      (image_payments 5 true accepted) image_step 0
                      ValidateImageGenerationTask (object_text (failed_event "t0")))
                one_delegate)
     = [FException (Exception "Sub-agent task failed")]
  /\ (result_of (image_task_callback numeric_message_py sample_config
                   (image_payments 5 true accepted) image_step 0
                   ValidateImageGenerationTask numeric_message_text)
        one_delegate
      = Raise ValidationError
      /\ futures (exec (image_task_callback numeric_message_py sample_config
                          (image_payments 5 true accepted) image_step 0
                          ValidateImageGenerationTask numeric_message_text)
                    one_delegate)
         = futures one_delegate).
Proof.
  split; [|split].
  - destruct (task_future_single_assignment sample_py sample_config
                (image_payments 5 true accepted) image_step 0
                ValidateImageGenerationTask)
      as (_ & _ & Hcompleted & _).
    destruct (Hcompleted (object_text (completed_event "t0")) one_delegate
                (object_value (completed_event "t0")) (JStr "Completed") (JStr "t0")
                (JArr [JStr "t0.png"]))
      as [_ Hfutures];
      [reflexivity | reflexivity | reflexivity | reflexivity | reflexivity |].
    rewrite Hfutures. reflexivity.
  - destruct (task_future_single_assignment sample_py sample_config
                (image_payments 5 true accepted) image_step 0
                ValidateImageGenerationTask)
      as (_ & _ & _ & Hfailed & _).
    destruct (Hfailed (object_text (failed_event "t0")) one_delegate
                (object_value (failed_event "t0")) (JStr "Failed")
                "render failed"%string (JStr "t0"))
      as [_ Hfutures];
      [intros t; reflexivity | reflexivity | reflexivity | reflexivity | reflexivity
      | reflexivity | reflexivity |].
    rewrite Hfutures. reflexivity.
  - destruct (task_future_single_assignment numeric_message_py sample_config
                (image_payments 5 true accepted) image_step 0
                ValidateImageGenerationTask)
      as (_ & _ & _ & _ & Hrefused).
    apply (Hrefused numeric_message_text one_delegate
             (JObj [("task_status", JStr "Failed"); ("task_id", JStr "t0");
                    ("message", JNum 5)])
             (JStr "Failed") (JNum 5));
      [reflexivity | reflexivity | reflexivity | reflexivity | reflexivity
      | discriminate].
Defined.

(** C7 as stated fails: once a first Completed signal has settled the
    future, a second terminal signal is not ignored without error: the
    callback raises [InvalidStateError], which the event loop sees leaving
    the callback. *)
Lemma second_terminal_signal_raises :
  futures one_delegate_settled = [FResult (JArr [JStr "t0.png"])]
  /\ result_of (image_task_callback sample_py sample_config
                  (image_payments 5 true accepted) image_step 0
                  ValidateImageGenerationTask (object_text (completed_event "t0")))
       one_delegate_settled
     = Raise InvalidStateError
  /\ result_of (image_task_callback sample_py sample_config
                  (image_payments 5 true accepted) image_step 0
                  ValidateImageGenerationTask (object_text (failed_event "t0")))
       one_delegate_settled
     = Raise InvalidStateError
  /\ last (trace (exec (deliver sample_py sample_config (image_payments 5 true accepted)
                          (0%nat, object_text (completed_event "t0")))
                    one_delegate_settled))
     = Some (EvCallbackRaised 0 InvalidStateError).
Proof. repeat split; reflexivity. Qed.

(** * Further properties of the code *)

(** ** Task validation *)

Lemma is_str_true (v : json) (s : string) : is_str v s = true <-> v = JStr s.
Proof.
  destruct v; cbn [is_str]; try (split; [discriminate | intros [=]]).
  destruct (String.eqb_spec s0 s) as [->|Hne]; split; auto; try discriminate.
  intros [= ->]. contradiction.
Qed.

Lemma validate_generic_task_eq (payments : Payments) (task_id : json)
    (agent_did : string) (parent_step : Step.t) (task_data : json)
    (task : list (string * json)) (task_status : json) (w : World) :
  let t :=
    trace w
    ++ [EvGetTaskWithSteps agent_did task_id;
        EvUpdateStep (Step.did parent_step) (Step.task_id parent_step)
          (Step.step_id parent_step)
          {| StepPatch.step_status :=
               if is_str task_status "Completed" then "Completed" else "Failed";
             StepPatch.output :=
               from_option id (JStr "Error during task execution")
                 (Py.assoc "output" task);
             StepPatch.output_artifacts :=
               Some (from_option id (JArr []) (Py.assoc "output_artifacts" task)) |}] in
  get_task_with_steps payments (trace w ++ [EvGetTaskWithSteps agent_did task_id])
  = Ok task_data ->
  Py.getitem task_data "task" = Ok (JObj task) ->
  Py.assoc "task_status" task = Some task_status ->
  validate_generic_task payments task_id agent_did parent_step w
  = (update_step payments t, set_trace t w).
Proof.
  cbn zeta. intros Hget Htask Hstatus. unfold validate_generic_task.
  rewrite bind_eq, call_eq, Hget. tidy.
  rewrite bind_eq. unfold lift at 1. rewrite Htask.
  rewrite bind_eq. unfold lift at 1. cbn [Py.getitem]. rewrite Hstatus.
  rewrite bind_eq. unfold lift at 1. cbn [Py.get].
  rewrite bind_eq. unfold lift at 1.
  rewrite call_eq. tidy. reflexivity.
Qed.

(** X1: [validate_generic_task] fetches the task record and makes one
    [update_step] call on the parent step.  The step becomes Completed
    exactly when the record's [task_status] is the string "Completed", and
    Failed otherwise; [output] and [output_artifacts] are those of the
    record, or the error text and the empty list when the record lacks them. *)
Theorem validate_generic_task_spec (payments : Payments) (task_id : json)
    (agent_did : string) (parent_step : Step.t) (task_data : json)
    (task : list (string * json)) (task_status : json) (w : World) :
  get_task_with_steps payments (trace w ++ [EvGetTaskWithSteps agent_did task_id])
  = Ok task_data ->
  Py.getitem task_data "task" = Ok (JObj task) ->
  Py.assoc "task_status" task = Some task_status ->
  exists patch,
    validate_generic_task payments task_id agent_did parent_step w
    = (update_step payments
         (trace w
          ++ [EvGetTaskWithSteps agent_did task_id;
              EvUpdateStep (Step.did parent_step) (Step.task_id parent_step)
                (Step.step_id parent_step) patch]),
       set_trace
         (trace w
          ++ [EvGetTaskWithSteps agent_did task_id;
              EvUpdateStep (Step.did parent_step) (Step.task_id parent_step)
                (Step.step_id parent_step) patch]) w)
    /\ (task_status = JStr "Completed" -> StepPatch.step_status patch = "Completed")
    /\ (task_status <> JStr "Completed" -> StepPatch.step_status patch = "Failed")
    /\ (forall output, Py.assoc "output" task = Some output ->
        StepPatch.output patch = output)
    /\ (Py.assoc "output" task = None ->
        StepPatch.output patch = JStr "Error during task execution")
    /\ (forall artifacts, Py.assoc "output_artifacts" task = Some artifacts ->
        StepPatch.output_artifacts patch = Some artifacts)
    /\ (Py.assoc "output_artifacts" task = None ->
        StepPatch.output_artifacts patch = Some (JArr [])).
Proof.
  intros Hget Htask Hstatus. eexists. split.
  - apply (validate_generic_task_eq payments task_id agent_did parent_step task_data
             task task_status w Hget Htask Hstatus).
  - cbn [StepPatch.step_status StepPatch.output StepPatch.output_artifacts].
    repeat split.
    + intros ->. reflexivity.
    + intros Hne. destruct (is_str task_status "Completed") eqn:His; [|reflexivity].
      apply is_str_true in His. contradiction.
    + intros output ->. reflexivity.
    + intros ->. reflexivity.
    + intros artifacts ->. reflexivity.
    + intros ->. reflexivity.
Qed.

Lemma validate_generic_task_witness :
  exists patch,
    validate_generic_task
      (sample_payments (sample_step "generateScript" "Pending" None) 5 true accepted
         sample_task_of)
      (JStr "t0") "did:nv:script" (sample_step "generateScript" "Pending" None)
      (initial_world [])
    = (Ok tt,
       set_trace
         [EvGetTaskWithSteps "did:nv:script" (JStr "t0");
          EvUpdateStep "did:nv:this" "task-1" "step-1" patch] (initial_world []))
    /\ StepPatch.step_status patch = "Completed"
    /\ StepPatch.output_artifacts patch = Some (JArr [JStr "t0.png"]).
Proof.
  destruct (validate_generic_task_spec
              (sample_payments (sample_step "generateScript" "Pending" None) 5 true
                 accepted sample_task_of)
              (JStr "t0") "did:nv:script" (sample_step "generateScript" "Pending" None)
              (sample_task_of (JStr "t0"))
              [("task_status", JStr "Completed"); ("output", JStr "done");
               ("output_artifacts", JArr [JStr "t0.png"])]
              (JStr "Completed") (initial_world []))
    as (patch & Heq & Hc & _ & _ & _ & Ha & _);
    [reflexivity | reflexivity | reflexivity |].
  exists patch. split; [exact Heq|]. split; [apply Hc; reflexivity|].
  apply Ha. reflexivity.
Defined.

(** X2: when the fetched record has no "task" entry, or its task has no
    "task_status" entry, [validate_generic_task] raises [KeyError] right
    after the fetch: the parent step is not updated. *)
Theorem validate_generic_task_missing_key (payments : Payments) (task_id : json)
    (agent_did : string) (parent_step : Step.t) (record : list (string * json))
    (w : World) :
  get_task_with_steps payments (trace w ++ [EvGetTaskWithSteps agent_did task_id])
  = Ok (JObj record) ->
  (Py.assoc "task" record = None ->
   validate_generic_task payments task_id agent_did parent_step w
   = (Raise (KeyError "task"),
      set_trace (trace w ++ [EvGetTaskWithSteps agent_did task_id]) w))
  /\ (forall task,
      Py.assoc "task" record = Some (JObj task) ->
      Py.assoc "task_status" task = None ->
      validate_generic_task payments task_id agent_did parent_step w
      = (Raise (KeyError "task_status"),
         set_trace (trace w ++ [EvGetTaskWithSteps agent_did task_id]) w)).
Proof.
  intros Hget. split.
  - intros Hnone. unfold validate_generic_task.
    rewrite bind_eq, call_eq, Hget. tidy.
    rewrite bind_eq. unfold lift at 1. cbn [Py.getitem]. rewrite Hnone. reflexivity.
  - intros task Htask Hnone. unfold validate_generic_task.
    rewrite bind_eq, call_eq, Hget. tidy.
    rewrite bind_eq. unfold lift at 1. cbn [Py.getitem]. rewrite Htask.
    rewrite bind_eq. unfold lift at 1. cbn [Py.getitem]. rewrite Hnone. reflexivity.
Qed.

Lemma validate_generic_task_missing_key_witness :
  validate_generic_task
    (sample_payments (sample_step "generateScript" "Pending" None) 5 true accepted
       (fun _ => JObj []))
    (JStr "t0") "did:nv:script" (sample_step "generateScript" "Pending" None)
    (initial_world [])
  = (Raise (KeyError "task"),
     set_trace (trace (initial_world [])
                ++ [EvGetTaskWithSteps "did:nv:script" (JStr "t0")])
       (initial_world [])).
Proof.
  apply (validate_generic_task_missing_key
           (sample_payments (sample_step "generateScript" "Pending" None) 5 true
              accepted (fun _ => JObj []))
           (JStr "t0") "did:nv:script" (sample_step "generateScript" "Pending" None)
           [] (initial_world []));
    reflexivity.
Defined.

(** X3: [validate_image_generation_task] only reads: whatever the client
    answers, its single event is the [get_task_with_steps] query on the image
    generator, and no future changes.  For a record with a task it returns
    the task's [output_artifacts], or the empty list when there are none. *)
Theorem validate_image_generation_task_spec (env : Config) (payments : Payments)
    (task_id : json) (w : World) :
  exec (validate_image_generation_task env payments task_id) w
  = set_trace (trace w ++ [EvGetTaskWithSteps (IMAGE_GENERATOR_DID env) task_id]) w
  /\ (forall task_json task,
      get_task_with_steps payments
        (trace w ++ [EvGetTaskWithSteps (IMAGE_GENERATOR_DID env) task_id])
      = Ok task_json ->
      Py.getitem task_json "task" = Ok (JObj task) ->
      result_of (validate_image_generation_task env payments task_id) w
      = Ok (from_option id (JArr []) (Py.assoc "output_artifacts" task))).
Proof.
  unfold exec, result_of, validate_image_generation_task. split.
  - rewrite bind_eq, call_eq. tidy.
    destruct (get_task_with_steps payments _) as [task_json| |]; try reflexivity.
    try (rewrite bind_eq; unfold lift;
         destruct (Py.getitem task_json "task") as [task| |]; try reflexivity;
         destruct (Py.get task "output_artifacts" (JArr [])); reflexivity).
  - intros task_json task Hget Htask.
    rewrite bind_eq, call_eq, Hget. tidy.
    rewrite bind_eq. unfold lift. rewrite Htask. reflexivity.
Qed.

Lemma validate_image_generation_task_witness :
  result_of (validate_image_generation_task sample_config
               (image_payments 5 true accepted) (JStr "t0")) (initial_world [])
  = Ok (from_option id (JArr [])
          (Py.assoc "output_artifacts"
             [("task_status", JStr "Completed"); ("output", JStr "done");
              ("output_artifacts", JArr [JStr "t0.png"])])).
Proof.
  destruct (validate_image_generation_task_spec sample_config
              (image_payments 5 true accepted) (JStr "t0") (initial_world []))
    as [_ H].
  apply (H (sample_task_of (JStr "t0"))); reflexivity.
Defined.

(** ** The callback of the single-agent handler *)

(** X4: the callback of [handle_step_with_agent] acts on a Completed signal
    only.  For any other status, Failed included, it makes no store write, so
    the step is not updated: a string message is forwarded as an info log; a
    message that is not a string is written on the console and then refused
    by [TaskLog] with [ValidationError], before [log_task] is called; and a
    signal without a "message" entry raises [KeyError] with no event at all. *)
Theorem generic_task_callback_other_status (py : PyLib) (payments : Payments)
    (step : Step.t) (agent_did data : string) (task_log : list (string * json))
    (w : World) :
  json_loads py data = Ok (JObj task_log) ->
  is_str (from_option id JNull (Py.assoc "task_status" task_log)) "Completed" = false ->
  (forall message : string,
      Py.assoc "message" task_log = Some (JStr message) ->
      exists new,
        generic_task_callback py payments step agent_did data w
        = (log_task payments (trace w ++ new), set_trace (trace w ++ new) w)
        /\ List.filter is_store_write new = []
        /\ new = [EvLogger "info" (Step.task_id step ++ " :: " ++ message)%string;
                  EvLogTask {| TaskLog.task_id := Step.task_id step;
                               TaskLog.level := "info";
                               TaskLog.message := message;
                               TaskLog.task_status := None |}])
  /\ (forall message,
      Py.assoc "message" task_log = Some message ->
      (forall s, message <> JStr s) ->
      generic_task_callback py payments step agent_did data w
      = (Raise ValidationError,
         set_trace
           (trace w
            ++ [EvLogger "info" (Step.task_id step ++ " :: " ++ str py message)%string])
           w))
  /\ (Py.assoc "message" task_log = None ->
      generic_task_callback py payments step agent_did data w
      = (Raise (KeyError "message"), w)).
Proof.
  intros Hloads Hstatus.
  assert (Hstep : forall message,
             Py.assoc "message" task_log = Some message ->
             generic_task_callback py payments step agent_did data w
             = log_message_value py payments (Step.task_id step) "info" message None w).
  { intros message Hmsg. unfold generic_task_callback.
    rewrite bind_eq. unfold lift at 1. rewrite Hloads.
    rewrite bind_eq. unfold lift at 1. cbn [Py.get]. rewrite Hstatus.
    rewrite bind_eq. unfold lift at 1. cbn [Py.getitem]. rewrite Hmsg. reflexivity. }
  split; [|split].
  - intros message Hmsg. rewrite (Hstep _ Hmsg). cbn [log_message_value].
    rewrite log_message_eq. cbn zeta. eexists. split; [reflexivity|].
    split; reflexivity.
  - intros message Hmsg Hnot. rewrite (Hstep _ Hmsg).
    destruct message; try reflexivity. exfalso. now apply (Hnot s).
  - intros Hmsg. unfold generic_task_callback.
    rewrite bind_eq. unfold lift at 1. rewrite Hloads.
    rewrite bind_eq. unfold lift at 1. cbn [Py.get]. rewrite Hstatus.
    rewrite bind_eq. unfold lift at 1. cbn [Py.getitem]. rewrite Hmsg. reflexivity.
Qed.

Lemma generic_task_callback_other_status_witness :
  (exists new,
      generic_task_callback sample_py
        (sample_payments (sample_step "generateScript" "Pending" None) 5 true accepted
           sample_task_of)
        (sample_step "generateScript" "Pending" None) "did:nv:script"
        (object_text (failed_event "t0")) (initial_world [])
      = (Ok tt, set_trace (trace (initial_world []) ++ new) (initial_world []))
      /\ List.filter is_store_write new = [])
  /\ generic_task_callback numeric_message_py
       (sample_payments (sample_step "generateScript" "Pending" None) 5 true accepted
          sample_task_of)
       (sample_step "generateScript" "Pending" None) "did:nv:script"
       numeric_message_text (initial_world [])
     = (Raise ValidationError,
        set_trace (trace (initial_world []) ++ [EvLogger "info" "task-1 :: 5"])
          (initial_world [])).
Proof.
  split.
  - destruct (generic_task_callback_other_status sample_py
                (sample_payments (sample_step "generateScript" "Pending" None) 5 true
                   accepted sample_task_of)
                (sample_step "generateScript" "Pending" None) "did:nv:script"
                (object_text (failed_event "t0"))
                [("task_status", JStr "Failed"); ("task_id", JStr "t0");
                 ("message", JStr "render failed")]
                (initial_world []))
      as [Hlogged _]; [reflexivity | reflexivity |].
    destruct (Hlogged "render failed"%string eq_refl) as (new & Heq & Hnone & _).
    exists new. split; [exact Heq | exact Hnone].
  - destruct (generic_task_callback_other_status numeric_message_py
                (sample_payments (sample_step "generateScript" "Pending" None) 5 true
                   accepted sample_task_of)
                (sample_step "generateScript" "Pending" None) "did:nv:script"
                numeric_message_text
                [("task_status", JStr "Failed"); ("task_id", JStr "t0");
                 ("message", JNum 5)]
                (initial_world []))
      as (_ & Hrefused & _); [reflexivity | reflexivity |].
    apply (Hrefused (JNum 5)); [reflexivity | discriminate].
Defined.

(** X5: on a Completed signal the callback of [handle_step_with_agent]
    validates the task named by the signal: its events are the fetch of that
    task from the handler's agent and one [update_step] on the handler's
    step, whose status follows the fetched record and not the signal, so a
    record that is not Completed marks the step Failed.  A Completed signal
    without a "task_id" entry raises [KeyError] with no event. *)
Theorem generic_task_callback_completed (py : PyLib) (payments : Payments)
    (step : Step.t) (agent_did data : string) (task_log : list (string * json))
    (w : World) :
  json_loads py data = Ok (JObj task_log) ->
  Py.assoc "task_status" task_log = Some (JStr "Completed") ->
  (forall task_id task_data task task_status,
      Py.assoc "task_id" task_log = Some task_id ->
      get_task_with_steps payments (trace w ++ [EvGetTaskWithSteps agent_did task_id])
      = Ok task_data ->
      Py.getitem task_data "task" = Ok (JObj task) ->
      Py.assoc "task_status" task = Some task_status ->
      let t :=
        trace w
        ++ [EvGetTaskWithSteps agent_did task_id;
            EvUpdateStep (Step.did step) (Step.task_id step) (Step.step_id step)
              {| StepPatch.step_status :=
                   if is_str task_status "Completed" then "Completed" else "Failed";
                 StepPatch.output :=
                   from_option id (JStr "Error during task execution")
                     (Py.assoc "output" task);
                 StepPatch.output_artifacts :=
                   Some (from_option id (JArr []) (Py.assoc "output_artifacts" task)) |}]
      in
      generic_task_callback py payments step agent_did data w
      = (update_step payments t, set_trace t w))
  /\ (Py.assoc "task_id" task_log = None ->
      generic_task_callback py payments step agent_did data w
      = (Raise (KeyError "task_id"), w)).
Proof.
  intros Hloads Hstatus. split.
  - intros task_id task_data task task_status Hid Hget Htask Hts. cbn zeta.
    unfold generic_task_callback.
    rewrite bind_eq. unfold lift at 1. rewrite Hloads.
    rewrite bind_eq. unfold lift at 1. cbn [Py.get]. rewrite Hstatus.
    cbn [from_option id is_str]. rewrite String.eqb_refl.
    rewrite bind_eq. unfold lift at 1. cbn [Py.getitem]. rewrite Hid.
    apply (validate_generic_task_eq payments task_id agent_did step task_data task
             task_status w Hget Htask Hts).
  - intros Hid. unfold generic_task_callback.
    rewrite bind_eq. unfold lift at 1. rewrite Hloads.
    rewrite bind_eq. unfold lift at 1. cbn [Py.get]. rewrite Hstatus.
    cbn [from_option id is_str]. rewrite String.eqb_refl.
    rewrite bind_eq. unfold lift at 1. cbn [Py.getitem]. rewrite Hid. reflexivity.
Qed.

Lemma generic_task_callback_completed_witness :
  generic_task_callback sample_py
    (sample_payments (sample_step "generateScript" "Pending" None) 5 true accepted
       failed_task_of)
    (sample_step "generateScript" "Pending" None) "did:nv:script"
    (object_text (completed_event "t0")) (initial_world [])
  = (Ok tt,
     set_trace
       [EvGetTaskWithSteps "did:nv:script" (JStr "t0");
        EvUpdateStep "did:nv:this" "task-1" "step-1"
          {| StepPatch.step_status := "Failed";
             StepPatch.output := JStr "Error during task execution";
             StepPatch.output_artifacts := Some (JArr []) |}]
       (initial_world [])).
Proof.
  destruct (generic_task_callback_completed sample_py
              (sample_payments (sample_step "generateScript" "Pending" None) 5 true
                 accepted failed_task_of)
              (sample_step "generateScript" "Pending" None) "did:nv:script"
              (object_text (completed_event "t0"))
              [("task_status", JStr "Completed"); ("task_id", JStr "t0")]
              (initial_world []))
    as [Hvalidated _]; [reflexivity | reflexivity |].
  apply (Hvalidated (JStr "t0") (failed_task_of (JStr "t0"))
           [("task_status", JStr "Failed")] (JStr "Failed"));
    reflexivity.
Defined.

(** ** The single-agent handler, accepted *)

Lemma handle_step_with_agent_accepted_eq (payments : Payments) (step : Step.t)
    (agent_did agent_name plan_did : string) (result : Response.t) (w w1 : World) :
  let task_data :=
    {| TaskData.query := Step.input_query step; TaskData.name := Step.name step;
       TaskData.additional_params := []; TaskData.artifacts := [] |} in
  let new :=
    [EvCreateTask agent_did task_data (length (callbacks w1));
     EvLogger "info" (Step.task_id step ++ " :: " ++ "Task created successfully.")%string;
     EvLogTask {| TaskLog.task_id := Step.task_id step; TaskLog.level := "info";
                  TaskLog.message := "Task created successfully.";
                  TaskLog.task_status := None |}] in
  ensure_sufficient_balance payments plan_did 1 w = (Ok true, w1) ->
  create_task payments
    (trace w1 ++ [EvCreateTask agent_did task_data (length (callbacks w1))])
  = Ok result ->
  Response.status_code result = Some 201 ->
  handle_step_with_agent payments step agent_did agent_name plan_did w
  = (log_task payments (trace w1 ++ new),
     set_trace (trace w1 ++ new)
       (set_callbacks (callbacks w1 ++ [GenericTaskCallback step agent_did]) w1)).
Proof.
  cbn zeta. intros Hbal Hcreate Hcode.
  unfold handle_step_with_agent.
  rewrite bind_eq, Hbal. cbn [negb].
  rewrite bind_eq, ai_create_task_eq. tidy. rewrite Hcreate, Hcode.
  cbn [from_option id Z.eqb Pos.eqb].
  rewrite log_message_eq. cbn zeta. tidy. reflexivity.
Qed.

(** X6: when the balance gate passes and [create_task] answers 201,
    [handle_step_with_agent] makes one store write, the [create_task] call:
    the task carries the step's [input_query] as query and the step's name,
    with no parameters and no artifacts, and the registered callback holds
    the step and the agent.  The step itself is not updated by the handler. *)
Theorem handle_step_with_agent_accepted (payments : Payments) (step : Step.t)
    (agent_did agent_name plan_did : string) (result : Response.t) (w w1 : World) :
  let task_data :=
    {| TaskData.query := Step.input_query step; TaskData.name := Step.name step;
       TaskData.additional_params := []; TaskData.artifacts := [] |} in
  let new :=
    [EvCreateTask agent_did task_data (length (callbacks w1));
     EvLogger "info" (Step.task_id step ++ " :: " ++ "Task created successfully.")%string;
     EvLogTask {| TaskLog.task_id := Step.task_id step; TaskLog.level := "info";
                  TaskLog.message := "Task created successfully.";
                  TaskLog.task_status := None |}] in
  ensure_sufficient_balance payments plan_did 1 w = (Ok true, w1) ->
  create_task payments
    (trace w1 ++ [EvCreateTask agent_did task_data (length (callbacks w1))])
  = Ok result ->
  Response.status_code result = Some 201 ->
  handle_step_with_agent payments step agent_did agent_name plan_did w
  = (log_task payments (trace w1 ++ new),
     set_trace (trace w1 ++ new)
       (set_callbacks (callbacks w1 ++ [GenericTaskCallback step agent_did]) w1))
  /\ List.filter is_store_write new
     = [EvCreateTask agent_did task_data (length (callbacks w1))].
Proof.
  cbn zeta. intros Hbal Hcreate Hcode. split; [|reflexivity].
  now apply (handle_step_with_agent_accepted_eq payments step agent_did agent_name
               plan_did result w w1).
Qed.

Lemma handle_step_with_agent_accepted_witness :
  result_of (handle_step_with_agent
               (sample_payments (sample_step "generateScript" "Pending" None) 5 true
                  accepted sample_task_of)
               (sample_step "generateScript" "Pending" None)
               "did:nv:script" "Script Generator" "did:nv:plan")
    (initial_world [])
  = Ok tt.
Proof.
  destruct (handle_step_with_agent_accepted
              (sample_payments (sample_step "generateScript" "Pending" None) 5 true
                 accepted sample_task_of)
              (sample_step "generateScript" "Pending" None)
              "did:nv:script" "Script Generator" "did:nv:plan" accepted
              (initial_world [])
              (set_trace (balance_call "did:nv:plan" []) (initial_world [])))
    as [Heq _]; [reflexivity | reflexivity | reflexivity |].
  unfold result_of. rewrite Heq. reflexivity.
Defined.

(** ** Routing *)

(** X7: a Pending step whose name is none of the four the router knows is
    skipped with a warning: [run] returns normally and makes no store write. *)
Theorem run_skips_unrecognized_name (py : PyLib) (env : Config) (payments : Payments)
    (data step_id : json) (step : Step.t) (w : World) :
  Py.getitem data "step_id" = Ok step_id ->
  get_step payments (trace w ++ received_events py data step_id) = Ok step ->
  log_task payments (trace w ++ gate_events py data step_id step) = Ok tt ->
  Step.step_status step = "Pending" ->
  ~ In (Step.name step)
      ["init"; "generateScript"; "extractCharacters"; "generateImagesForCharacters"] ->
  run py env payments data w
  = (Ok tt,
     set_trace
       (trace w ++ gate_events py data step_id step
        ++ [EvLogger "warning"
              ("Unrecognized step name: " ++ Step.name step ++ ". Skipping.")%string])
       w)
  /\ List.filter is_store_write
       (gate_events py data step_id step
        ++ [EvLogger "warning"
              ("Unrecognized step name: " ++ Step.name step ++ ". Skipping.")%string])
     = [].
Proof.
  intros Hid Hget Hlog Hstatus Hname. split; [|reflexivity].
  rewrite (run_gate py env payments data step_id w Hid step Hget), Hlog, Hstatus.
  cbn [String.eqb Ascii.eqb Bool.eqb negb]. unfold dispatch.
  repeat match goal with
         | |- context [String.eqb (Step.name step) ?s] =>
             destruct (String.eqb_spec (Step.name step) s) as [Heq|_];
             [exfalso; apply Hname; rewrite Heq; cbn; tauto|]
         end.
  rewrite logger_eq. tidy. rewrite app_assoc. reflexivity.
Qed.

Lemma run_skips_unrecognized_name_witness :
  result_of (run sample_py sample_config
               (sample_payments (sample_step "renderTrailer" "Pending" None) 5 true
                  accepted sample_task_of)
               notification)
    (initial_world [])
  = Ok tt.
Proof.
  destruct (run_skips_unrecognized_name sample_py sample_config
              (sample_payments (sample_step "renderTrailer" "Pending" None) 5 true
                 accepted sample_task_of)
              notification (JStr "step-1") (sample_step "renderTrailer" "Pending" None)
              (initial_world []))
    as [Heq _]; [reflexivity | reflexivity | reflexivity | reflexivity | |].
  - cbn. intros [H|[H|[H|[H|[]]]]]; discriminate H.
  - unfold result_of. rewrite Heq. reflexivity.
Defined.

(** X8: a notification from which "step_id" cannot be read makes [run] raise
    after the receipt log line, before any call on the client: [get_step] is
    never called.  For a dict without the key the exception is [KeyError]. *)
Theorem run_without_step_id (py : PyLib) (env : Config) (payments : Payments)
    (data : json) (w : World) :
  (forall e,
      Py.getitem data "step_id" = Raise e ->
      run py env payments data w
      = (Raise e,
         set_trace (trace w ++ [EvLogger "info" ("Received event: " ++ str py data)%string])
           w))
  /\ (forall items,
      data = JObj items ->
      Py.assoc "step_id" items = None ->
      run py env payments data w
      = (Raise (KeyError "step_id"),
         set_trace (trace w ++ [EvLogger "info" ("Received event: " ++ str py data)%string])
           w)).
Proof.
  assert (H : forall e,
             Py.getitem data "step_id" = Raise e ->
             run py env payments data w
             = (Raise e,
                set_trace
                  (trace w ++ [EvLogger "info" ("Received event: " ++ str py data)%string])
                  w)).
  { intros e He. unfold run. rewrite bind_eq, logger_eq, bind_eq. unfold lift at 1.
    rewrite He. reflexivity. }
  split; [exact H|].
  intros items -> Hnone. apply H. cbn [Py.getitem]. rewrite Hnone. reflexivity.
Qed.

Lemma run_without_step_id_witness :
  run sample_py sample_config
    (sample_payments (sample_step "init" "Pending" None) 5 true accepted sample_task_of)
    (JObj [("task_id", JStr "task-1")]) (initial_world [])
  = (Raise (KeyError "step_id"),
     set_trace
       (trace (initial_world [])
        ++ [EvLogger "info"
              ("Received event: "
               ++ str sample_py (JObj [("task_id", JStr "task-1")]))%string])
       (initial_world [])).
Proof.
  destruct (run_without_step_id sample_py sample_config
              (sample_payments (sample_step "init" "Pending" None) 5 true accepted
                 sample_task_of)
              (JObj [("task_id", JStr "task-1")]) (initial_world []))
    as [_ H].
  apply (H [("task_id", JStr "task-1")]); reflexivity.
Defined.

(** The agent and label [run] uses for a step name handled by a single
    agent. *)
Lemma dispatch_agent_step (py : PyLib) (env : Config) (payments : Payments)
    (step : Step.t) :
  (Step.name step = "generateScript" ->
   dispatch py env payments step
   = handle_step_with_agent payments step (SCRIPT_GENERATOR_DID env) "Script Generator"
       (THIS_PLAN_DID env))
  /\ (Step.name step = "extractCharacters" ->
      dispatch py env payments step
      = handle_step_with_agent payments step (CHARACTER_EXTRACTOR_DID env)
          "Character Extractor" (THIS_PLAN_DID env)).
Proof. split; intros Hname; unfold dispatch; rewrite Hname; reflexivity. Qed.

Section AgentRouting.

Variable py : PyLib.
Variable env : Config.
Variable payments : Payments.
Variables (data step_id : json) (step : Step.t) (balance : Z) (result : Response.t).
Variable w : World.
Hypothesis Hid : Py.getitem data "step_id" = Ok step_id.
Hypothesis Hget : get_step payments (trace w ++ received_events py data step_id) = Ok step.
Hypothesis Hlog : reliable (log_task payments).
Hypothesis Hstatus : Step.step_status step = "Pending".
Hypothesis Hbalance : forall t, get_plan_balance payments t = Ok balance.
Hypothesis Hfunded : 1 <= balance.
Hypothesis Hcreate : forall t, create_task payments t = Ok result.
Hypothesis Hcode : Response.status_code result = Some 201.

Lemma run_agent_step (agent_did agent_name : string) :
  dispatch py env payments step
  = handle_step_with_agent payments step agent_did agent_name (THIS_PLAN_DID env) ->
  exists new,
    run py env payments data w
    = (Ok tt,
       set_trace (trace w ++ new)
         (set_callbacks (callbacks w ++ [GenericTaskCallback step agent_did]) w))
    /\ List.filter is_store_write new
       = [EvCreateTask agent_did
            {| TaskData.query := Step.input_query step; TaskData.name := Step.name step;
               TaskData.additional_params := []; TaskData.artifacts := [] |}
            (length (callbacks w))]
    /\ List.filter is_get_plan_balance new = [EvGetPlanBalance (THIS_PLAN_DID env)].
Proof.
  intros Hdispatch.
  rewrite (run_gate py env payments data step_id w Hid step Hget), Hlog, Hstatus.
  cbn [String.eqb Ascii.eqb Bool.eqb negb]. rewrite Hdispatch.
  erewrite handle_step_with_agent_accepted_eq;
    [| apply (balance_enough payments _ 1 balance); [apply Hbalance | exact Hfunded]
     | apply Hcreate | exact Hcode].
  rewrite Hlog. tidy. unfold balance_call. tidy.
  eexists. split; [reflexivity|]. split; reflexivity.
Qed.

End AgentRouting.

(** X9: for a Pending step named generateScript or extractCharacters, with a
    funded plan, a reliable log and an accepting agent, [run] checks the
    balance of this agent's own plan once and creates one task, on the script
    generator for generateScript and on the character extractor for
    extractCharacters; that task is its only store write. *)
Theorem run_routes_agent_steps (py : PyLib) (env : Config) (payments : Payments)
    (data step_id : json) (step : Step.t) (balance : Z) (result : Response.t)
    (w : World) :
  Py.getitem data "step_id" = Ok step_id ->
  get_step payments (trace w ++ received_events py data step_id) = Ok step ->
  reliable (log_task payments) ->
  Step.step_status step = "Pending" ->
  (forall t, get_plan_balance payments t = Ok balance) ->
  1 <= balance ->
  (forall t, create_task payments t = Ok result) ->
  Response.status_code result = Some 201 ->
  forall agent_did,
    (Step.name step = "generateScript" /\ agent_did = SCRIPT_GENERATOR_DID env)
    \/ (Step.name step = "extractCharacters" /\ agent_did = CHARACTER_EXTRACTOR_DID env) ->
    exists new,
      run py env payments data w
      = (Ok tt,
         set_trace (trace w ++ new)
           (set_callbacks (callbacks w ++ [GenericTaskCallback step agent_did]) w))
      /\ List.filter is_store_write new
         = [EvCreateTask agent_did
              {| TaskData.query := Step.input_query step;
                 TaskData.name := Step.name step;
                 TaskData.additional_params := []; TaskData.artifacts := [] |}
              (length (callbacks w))]
      /\ List.filter is_get_plan_balance new = [EvGetPlanBalance (THIS_PLAN_DID env)].
Proof.
  intros Hid Hget Hlog Hstatus Hbalance Hfunded Hcreate Hcode agent_did Hroute.
  destruct (dispatch_agent_step py env payments step) as [Hscript Hcharacters].
  destruct Hroute as [[Hname ->]|[Hname ->]].
  - eapply run_agent_step; eauto.
  - eapply run_agent_step; eauto.
Qed.

Lemma run_routes_agent_steps_witness :
  exists new,
    run sample_py sample_config
      (sample_payments (sample_step "extractCharacters" "Pending" None) 5 true accepted
         sample_task_of)
      notification (initial_world [])
    = (Ok tt,
       set_trace (trace (initial_world []) ++ new)
         (set_callbacks
            (callbacks (initial_world [])
             ++ [GenericTaskCallback (sample_step "extractCharacters" "Pending" None)
                   "did:nv:characters"])
            (initial_world [])))
    /\ List.filter is_store_write new
       = [EvCreateTask "did:nv:characters"
            {| TaskData.query := "a movie about a lighthouse";
               TaskData.name := "extractCharacters";
               TaskData.additional_params := []; TaskData.artifacts := [] |} 0]
    /\ List.filter is_get_plan_balance new = [EvGetPlanBalance "did:nv:plan"].
Proof.
  apply (run_routes_agent_steps sample_py sample_config
           (sample_payments (sample_step "extractCharacters" "Pending" None) 5 true
              accepted sample_task_of)
           notification (JStr "step-1")
           (sample_step "extractCharacters" "Pending" None) 5 accepted
           (initial_world []));
    try reflexivity; try (intros t; reflexivity); try lia.
  right. split; reflexivity.
Defined.

Lemma handle_init_step_writes (payments : Payments) (step : Step.t) (w : World) :
  reliable (create_steps payments) ->
  reliable (log_task payments) ->
  exists script_step_id character_step_id image_step_id new,
    handle_init_step payments step w
    = (update_step payments (trace w ++ new), set_trace (trace w ++ new) w)
    /\ List.filter is_store_write new
       = [EvCreateSteps (Step.did step) (Step.task_id step)
            [ {| NewStep.step_id := script_step_id;
                 NewStep.task_id := Step.task_id step;
                 NewStep.predecessor := Step.step_id step;
                 NewStep.name := "generateScript";
                 NewStep.is_last := false |};
              {| NewStep.step_id := character_step_id;
                 NewStep.task_id := Step.task_id step;
                 NewStep.predecessor := script_step_id;
                 NewStep.name := "extractCharacters";
                 NewStep.is_last := false |};
              {| NewStep.step_id := image_step_id;
                 NewStep.task_id := Step.task_id step;
                 NewStep.predecessor := character_step_id;
                 NewStep.name := "generateImagesForCharacters";
                 NewStep.is_last := true |} ];
          EvUpdateStep (Step.did step) (Step.task_id step) (Step.step_id step)
            {| StepPatch.step_status := "Completed";
               StepPatch.output := JStr (Step.input_query step);
               StepPatch.output_artifacts := None |}]
    /\ List.filter is_get_plan_balance new = [].
Proof.
  intros Hcreate Hlog. unfold handle_init_step, next_step_id.
  rewrite bind_eq, call_eq. tidy.
  rewrite bind_eq, call_eq. tidy.
  rewrite bind_eq, call_eq. tidy.
  rewrite bind_eq, call_eq, Hcreate. tidy.
  rewrite bind_eq, log_message_eq. cbn zeta. rewrite Hlog. tidy.
  rewrite call_eq. tidy.
  eexists _, _, _, _. split; [reflexivity|]. split; reflexivity.
Qed.

(** X10: for a Pending step named init, with a reliable store and log, [run]
    returns normally and its store writes are the [create_steps] call with
    the three chained steps followed by the [update_step] call that marks the
    init step Completed; no task is created and no balance is checked. *)
Theorem run_init_step (py : PyLib) (env : Config) (payments : Payments)
    (data step_id : json) (step : Step.t) (w : World) :
  Py.getitem data "step_id" = Ok step_id ->
  get_step payments (trace w ++ received_events py data step_id) = Ok step ->
  reliable (log_task payments) ->
  reliable (create_steps payments) ->
  reliable (update_step payments) ->
  Step.step_status step = "Pending" ->
  Step.name step = "init" ->
  exists script_step_id character_step_id image_step_id new,
    run py env payments data w = (Ok tt, set_trace (trace w ++ new) w)
    /\ List.filter is_store_write new
       = [EvCreateSteps (Step.did step) (Step.task_id step)
            [ {| NewStep.step_id := script_step_id;
                 NewStep.task_id := Step.task_id step;
                 NewStep.predecessor := Step.step_id step;
                 NewStep.name := "generateScript";
                 NewStep.is_last := false |};
              {| NewStep.step_id := character_step_id;
                 NewStep.task_id := Step.task_id step;
                 NewStep.predecessor := script_step_id;
                 NewStep.name := "extractCharacters";
                 NewStep.is_last := false |};
              {| NewStep.step_id := image_step_id;
                 NewStep.task_id := Step.task_id step;
                 NewStep.predecessor := character_step_id;
                 NewStep.name := "generateImagesForCharacters";
                 NewStep.is_last := true |} ];
          EvUpdateStep (Step.did step) (Step.task_id step) (Step.step_id step)
            {| StepPatch.step_status := "Completed";
               StepPatch.output := JStr (Step.input_query step);
               StepPatch.output_artifacts := None |}]
    /\ List.filter is_get_plan_balance new = [].
Proof.
  intros Hid Hget Hlog Hcreate Hupdate Hstatus Hname.
  rewrite (run_gate py env payments data step_id w Hid step Hget), Hlog, Hstatus.
  cbn [String.eqb Ascii.eqb Bool.eqb negb]. unfold dispatch. rewrite Hname.
  cbn [String.eqb Ascii.eqb Bool.eqb].
  destruct (handle_init_step_writes payments step
              (set_trace (trace w ++ gate_events py data step_id step) w) Hcreate Hlog)
    as (id1 & id2 & id3 & new & Heq & Hwrites & Hreads).
  rewrite Heq, Hupdate. tidy.
  exists id1, id2, id3, (gate_events py data step_id step ++ new).
  split; [reflexivity|]. rewrite !List.filter_app, Hwrites, Hreads.
  split; reflexivity.
Qed.

Lemma run_init_step_witness :
  exists script_step_id character_step_id image_step_id new,
    run sample_py sample_config
      (sample_payments (sample_step "init" "Pending" None) 0 false rejected
         sample_task_of)
      notification (initial_world [])
    = (Ok tt, set_trace (trace (initial_world []) ++ new) (initial_world []))
    /\ List.filter is_store_write new
       = [EvCreateSteps "did:nv:this" "task-1"
            [ {| NewStep.step_id := script_step_id; NewStep.task_id := "task-1";
                 NewStep.predecessor := "step-1"; NewStep.name := "generateScript";
                 NewStep.is_last := false |};
              {| NewStep.step_id := character_step_id; NewStep.task_id := "task-1";
                 NewStep.predecessor := script_step_id;
                 NewStep.name := "extractCharacters"; NewStep.is_last := false |};
              {| NewStep.step_id := image_step_id; NewStep.task_id := "task-1";
                 NewStep.predecessor := character_step_id;
                 NewStep.name := "generateImagesForCharacters";
                 NewStep.is_last := true |} ];
          EvUpdateStep "did:nv:this" "task-1" "step-1"
            {| StepPatch.step_status := "Completed";
               StepPatch.output := JStr "a movie about a lighthouse";
               StepPatch.output_artifacts := None |}]
    /\ List.filter is_get_plan_balance new = [].
Proof.
  apply (run_init_step sample_py sample_config
           (sample_payments (sample_step "init" "Pending" None) 0 false rejected
              sample_task_of)
           notification (JStr "step-1") (sample_step "init" "Pending" None)
           (initial_world []));
    try reflexivity; intros t; reflexivity.
Defined.

(** ** The image prompt, edge cases *)

Lemma prompt_values_app (l1 l2 : list (string * json)) :
  prompt_values (l1 ++ l2) = prompt_values l1 ++ prompt_values l2.
Proof.
  induction l1 as [|[k v] rest IH]; [reflexivity|].
  cbn [app prompt_values]. destruct (negb (String.eqb k "name")); cbn [app];
    now rewrite IH.
Qed.

Lemma join_typed (sep : string) (values : list json) :
  (Forall (fun v => exists s, v = JStr s) values -> exists s, Py.join sep values = Ok s)
  /\ (Exists (fun v => forall s, v <> JStr s) values ->
      Py.join sep values = Raise TypeError).
Proof.
  induction values as [|v rest [IHok IHbad]].
  - split; [intros _; exists ""%string; reflexivity|]. intros H. inversion H.
  - split.
    + intros H. inversion H as [|? ? [s ->] Hrest]; subst.
      destruct (IHok Hrest) as [r Hr]. cbn [Py.join].
      destruct rest; [eauto|]. rewrite Hr. cbn [outcome_bind]. eauto.
    + intros H. inversion H as [? ? Hv|? ? Hrest]; subst.
      * destruct v; try reflexivity. exfalso. now apply (Hv s).
      * specialize (IHbad Hrest). destruct v; try reflexivity.
        cbn [Py.join]. destruct rest; [inversion Hrest|].
        rewrite IHbad. reflexivity.
Qed.

(** X11: [generate_text_to_image_prompt] needs a dict whose attributes other
    than "name" are all strings.  It returns a prompt for every such dict,
    raises [TypeError] as soon as one of those attributes is not a string, and
    raises [AttributeError] for a value that is not a dict. *)
Theorem generate_text_to_image_prompt_typing :
  (forall kvs,
      Forall (fun kv => fst kv <> "name" -> exists s, snd kv = JStr s) kvs ->
      exists prompt, generate_text_to_image_prompt (JObj kvs) = Ok prompt)
  /\ (forall kvs,
      Exists (fun kv => fst kv <> "name" /\ forall s, snd kv <> JStr s) kvs ->
      generate_text_to_image_prompt (JObj kvs) = Raise TypeError)
  /\ (forall character,
      (forall kvs, character <> JObj kvs) ->
      generate_text_to_image_prompt character = Raise AttributeError).
Proof.
  split; [|split].
  - intros kvs Hall. unfold generate_text_to_image_prompt. cbn [Py.items outcome_bind].
    apply join_typed. induction Hall as [|[k v] rest Hkv _ IH]; [constructor|].
    cbn [prompt_values]. destruct (String.eqb_spec k "name") as [->|Hne]; cbn [negb].
    + exact IH.
    + constructor; [now apply Hkv | exact IH].
  - intros kvs Hex. unfold generate_text_to_image_prompt. cbn [Py.items outcome_bind].
    apply join_typed. induction Hex as [[k v] rest [Hne Hv]|[k v] rest _ IH].
    + cbn [prompt_values fst snd] in *.
      destruct (String.eqb_spec k "name") as [->|_]; [contradiction|].
      cbn [negb]. now constructor.
    + cbn [prompt_values]. destruct (negb (String.eqb k "name")); [|exact IH].
      now apply Exists_cons_tl.
  - intros character Hnot. destruct character; try reflexivity.
    exfalso. now apply (Hnot items).
Qed.

Lemma generate_text_to_image_prompt_typing_witness :
  generate_text_to_image_prompt (JObj [("name", JStr "Amy"); ("age", JNum 30)])
  = Raise TypeError.
Proof.
  destruct generate_text_to_image_prompt_typing as (_ & Hbad & _).
  apply Hbad. apply Exists_cons_tl. apply Exists_cons_hd. split; discriminate.
Defined.

(** X12: the "name" attribute does not reach the prompt: wherever it stands
    in the dict and whatever its value, string or not, the prompt is that of
    the dict without it.  A character with a name only gets the empty
    prompt. *)
Theorem generate_text_to_image_prompt_ignores_name :
  (forall before after value,
      generate_text_to_image_prompt (JObj (before ++ ("name", value) :: after))
      = generate_text_to_image_prompt (JObj (before ++ after)))
  /\ (forall value,
      generate_text_to_image_prompt (JObj [("name", value)]) = Ok ""%string).
Proof.
  split; [|reflexivity].
  intros before after value. unfold generate_text_to_image_prompt.
  cbn [Py.items outcome_bind]. rewrite !prompt_values_app. reflexivity.
Qed.

(** ** The image handler, edge cases *)

Lemma gather_nothing (py : PyLib) (env : Config) (payments : Payments) (w : World) :
  gather py env payments [] w = (Ok [], w).
Proof.
  unfold gather. rewrite bind_eq. cbn [start_all]. unfold mret, M_ret.
  cbn [first_raise]. destruct (inbox w); reflexivity.
Qed.

(** X13: when [input_artifacts] holds an empty list of characters, the
    handler asks for a balance of zero units, launches no delegate and
    creates no task: with a balance that is not negative and a reliable store
    and log it marks the step Completed with an empty [output_artifacts]
    list, without waiting for any delivery. *)
Theorem handle_image_generation_no_characters (py : PyLib) (env : Config)
    (payments : Payments) (step : Step.t) (characters : json) (balance : Z)
    (w : World) :
  loads py (from_option id (JStr "[]") (Step.input_artifacts step)) = Ok characters ->
  loads py characters = Ok (JArr []) ->
  get_plan_balance payments (balance_call (IMAGE_GENERATOR_PLAN_DID env) (trace w))
  = Ok balance ->
  0 <= balance ->
  reliable (log_task payments) ->
  reliable (update_step payments) ->
  handle_image_generation_for_characters py env payments step w
  = (Ok tt,
     set_trace (balance_call (IMAGE_GENERATOR_PLAN_DID env) (trace w)
                ++ completed_events step []) w).
Proof.
  intros H1 H2 Hbal Hle Hlog Hupdate.
  rewrite (handle_image_generation_launched py env payments step w
             (set_trace (balance_call (IMAGE_GENERATOR_PLAN_DID env) (trace w)) w)
             [] []).
  - rewrite (join_image_tasks_completed py env payments step [] _ Hlog Hupdate []);
      unfold result_of, exec; rewrite gather_nothing; reflexivity.
  - exists characters, (JArr []), 0. repeat split; auto.
    now apply (balance_enough payments _ 0 balance).
Qed.

Lemma handle_image_generation_no_characters_witness :
  handle_image_generation_for_characters empty_list_py sample_config
    (image_payments 0 false rejected)
    (sample_step "generateImagesForCharacters" "Pending" (Some (JStr (quoted "[]"))))
    (initial_world [])
  = (Ok tt,
     set_trace
       (balance_call "did:nv:image-plan" (trace (initial_world []))
        ++ completed_events
             (sample_step "generateImagesForCharacters" "Pending"
                (Some (JStr (quoted "[]")))) [])
       (initial_world [])).
Proof.
  apply (handle_image_generation_no_characters empty_list_py sample_config
           (image_payments 0 false rejected)
           (sample_step "generateImagesForCharacters" "Pending"
              (Some (JStr (quoted "[]"))))
           (JStr "[]") 0 (initial_world []));
    try reflexivity; try lia; intros t; reflexivity.
Defined.

Lemma join_not_blocked (sep : string) (values : list json) :
  Py.join sep values <> Blocked.
Proof.
  induction values as [|v rest IH]; [discriminate|].
  destruct v; try discriminate. cbn [Py.join]. destruct rest; [discriminate|].
  destruct (Py.join sep (j :: rest)); [discriminate | discriminate | contradiction].
Qed.

Lemma image_tasks_raises (py : PyLib) (env : Config) (payments : Payments)
    (step : Step.t) (cs : list json) (c : json) (e : exn) :
  In c cs -> generate_text_to_image_prompt c = Raise e ->
  exists e', image_tasks py env payments step cs = Raise e'.
Proof.
  intros Hin Hc. induction cs as [|c0 rest IH]; [destruct Hin|].
  cbn [image_tasks].
  destruct (generate_text_to_image_prompt c0) as [prompt|e0|] eqn:H0;
    cbn [outcome_bind].
  - destruct Hin as [->|Hin]; [congruence|].
    destruct (IH Hin) as [e' He']. rewrite He'. eauto.
  - eauto.
  - exfalso. unfold generate_text_to_image_prompt in H0.
    destruct c0; try discriminate. cbn [Py.items outcome_bind] in H0.
    now apply join_not_blocked in H0.
Qed.

(** X14: the prompts of all characters are built before any delegate runs.
    When the prompt of one character cannot be built, the handler raises
    from the world in which the balance gate left it: no task has been
    created for any character, and the step is not updated. *)
Theorem handle_image_generation_bad_character (py : PyLib) (env : Config)
    (payments : Payments) (step : Step.t) (characters characters_json : json)
    (required : Z) (cs : list json) (c : json) (e : exn) (w wb : World) :
  loads py (from_option id (JStr "[]") (Step.input_artifacts step)) = Ok characters ->
  loads py characters = Ok characters_json ->
  Py.len characters_json = Ok required ->
  ensure_sufficient_balance payments (IMAGE_GENERATOR_PLAN_DID env) required w
  = (Ok true, wb) ->
  Py.iter characters_json = Ok cs ->
  In c cs ->
  generate_text_to_image_prompt c = Raise e ->
  exists e',
    handle_image_generation_for_characters py env payments step w = (Raise e', wb).
Proof.
  intros H1 H2 H3 H4 H5 Hin Hc.
  destruct (image_tasks_raises py env payments step cs c e Hin Hc) as [e' He'].
  exists e'. unfold handle_image_generation_for_characters.
  rewrite bind_eq. unfold lift at 1. rewrite H1.
  rewrite bind_eq. unfold lift at 1. rewrite H2.
  rewrite bind_eq. unfold lift at 1. rewrite H3.
  rewrite bind_eq, H4. cbn [negb].
  rewrite bind_eq. unfold lift at 1. rewrite H5.
  rewrite bind_eq. unfold lift at 1. rewrite He'. reflexivity.
Qed.

Lemma handle_image_generation_bad_character_witness :
  exists e',
    handle_image_generation_for_characters lone_character_py sample_config
      (image_payments 5 true accepted)
      (sample_step "generateImagesForCharacters" "Pending"
         (Some (JStr (quoted (escaped (object_text lone_character))))))
      (initial_world [])
    = (Raise e', after_balance_gate (initial_world [])).
Proof.
  apply (handle_image_generation_bad_character lone_character_py sample_config
           (image_payments 5 true accepted)
           (sample_step "generateImagesForCharacters" "Pending"
              (Some (JStr (quoted (escaped (object_text lone_character))))))
           (JStr (object_text lone_character)) (object_value lone_character) 2
           [JStr "name"; JStr "hair"] (JStr "name") AttributeError
           (initial_world []) (after_balance_gate (initial_world [])));
    try reflexivity.
  left. reflexivity.
Defined.

(** X15: [input_artifacts] must be doubly encoded.  When its first decoding
    is anything but a string, the second [json.loads] raises [TypeError] and
    the handler stops with no event; this is what happens to a step without
    [input_artifacts], whose default text decodes to an empty list. *)
Theorem handle_image_generation_single_encoding (py : PyLib) (env : Config)
    (payments : Payments) (step : Step.t) (w : World) :
  (forall characters,
      loads py (from_option id (JStr "[]") (Step.input_artifacts step)) = Ok characters ->
      (forall s, characters <> JStr s) ->
      handle_image_generation_for_characters py env payments step w
      = (Raise TypeError, w))
  /\ (Step.input_artifacts step = None ->
      json_loads py "[]" = Ok (JArr []) ->
      handle_image_generation_for_characters py env payments step w
      = (Raise TypeError, w)).
Proof.
  assert (H : forall characters,
             loads py (from_option id (JStr "[]") (Step.input_artifacts step))
             = Ok characters ->
             (forall s, characters <> JStr s) ->
             handle_image_generation_for_characters py env payments step w
             = (Raise TypeError, w)).
  { intros characters H1 Hnot. unfold handle_image_generation_for_characters.
    rewrite bind_eq. unfold lift at 1. rewrite H1.
    rewrite bind_eq. unfold lift at 1.
    destruct characters; try reflexivity. exfalso. now apply (Hnot s). }
  split; [exact H|].
  intros Hnone Hempty. apply (H (JArr [])); [|discriminate].
  rewrite Hnone. exact Hempty.
Qed.

Lemma handle_image_generation_single_encoding_witness :
  handle_image_generation_for_characters sample_py sample_config
    (image_payments 5 true accepted)
    (sample_step "generateImagesForCharacters" "Pending" (Some (JStr characters_text)))
    (initial_world [])
  = (Raise TypeError, initial_world []).
Proof.
  destruct (handle_image_generation_single_encoding sample_py sample_config
              (image_payments 5 true accepted)
              (sample_step "generateImagesForCharacters" "Pending"
                 (Some (JStr characters_text)))
              (initial_world []))
    as [H _].
  apply (H (JArr (map object_value sample_characters))); [reflexivity | discriminate].
Defined.

(** X16: the Completed update carries one artifacts entry per character:
    whenever the launched join returns, its list of results is as long as the
    list of characters. *)
Theorem gather_one_result_per_character (py : PyLib) (env : Config)
    (payments : Payments) (step : Step.t) (w wb : World) (cs : list json)
    (tasks : list (M nat)) (artifacts : list json) :
  launches py env payments step w cs tasks wb ->
  result_of (gather py env payments tasks) wb = Ok artifacts ->
  length artifacts = length cs.
Proof.
  intros Hlaunch Hres.
  assert (Htasks : length tasks = length cs).
  { destruct Hlaunch as (? & ? & ? & _ & _ & _ & _ & _ & H).
    apply image_tasks_order in H. symmetry. exact (Forall2_length _ _ _ H). }
  rewrite <- Htasks. destruct (start_all_ok tasks wb) as [_ <-].
  unfold result_of in Hres. rewrite gather_eq in Hres. cbn zeta in Hres.
  destruct (first_raise (started_of tasks wb)); [discriminate|].
  pose proof (await_all_poll py env payments (inbox (exec (start_all tasks) wb))
                (started_of tasks wb) (exec (start_all tasks) wb)) as Hinv.
  destruct (await_all _ _ _ _ _ _) as [[results| |] w']; cbn [fst] in Hres;
    try discriminate.
  injection Hres as ->. apply poll_done in Hinv.
  symmetry. exact (Forall2_length _ _ _ Hinv).
Qed.

Lemma gather_one_result_per_character_witness :
  length [JArr [JStr "t0.png"]; JArr [JStr "t1.png"]; JArr [JStr "t2.png"]]
  = length (map object_value sample_characters).
Proof.
  apply (gather_one_result_per_character sample_py sample_config
           (image_payments 5 true accepted) image_step all_complete
           (after_balance_gate all_complete) (map object_value sample_characters)
           (sample_delegates (image_payments 5 true accepted))
           [JArr [JStr "t0.png"]; JArr [JStr "t1.png"]; JArr [JStr "t2.png"]]).
  - apply image_step_launches.
  - reflexivity.
Defined.

(** ** The balance gate, its effects *)

(** X17: [ensure_sufficient_balance] never writes to the store: whatever the
    client answers, its events are log lines, one balance query and at most
    one order.  When the balance query raises, the exception leaves the gate
    and [order_plan] is not called. *)
Theorem ensure_sufficient_balance_effects (payments : Payments) (plan_did : string)
    (required_balance : Z) (w : World) :
  (exists new,
      exec (ensure_sufficient_balance payments plan_did required_balance) w
      = set_trace (trace w ++ new) w
      /\ List.filter is_store_write new = []
      /\ length (List.filter is_get_plan_balance new) = 1%nat
      /\ (length (List.filter is_order_plan new) <= 1)%nat)
  /\ (forall e,
      get_plan_balance payments (balance_call plan_did (trace w)) = Raise e ->
      ensure_sufficient_balance payments plan_did required_balance w
      = (Raise e, set_trace (balance_call plan_did (trace w)) w)).
Proof.
  split.
  - unfold exec, ensure_sufficient_balance.
    rewrite bind_eq, logger_eq, bind_eq, call_eq. tidy.
    destruct (get_plan_balance payments _) as [balance|e|];
      [|eexists; cbn [snd]; split; [reflexivity|]; cbn; auto..].
    destruct (balance <? required_balance);
      [|eexists; cbn [snd]; split; [reflexivity|]; cbn; auto].
    rewrite bind_eq, logger_eq, bind_eq, call_eq. tidy.
    destruct (order_plan payments _) as [[|]|e|];
      cbn [negb]; try rewrite bind_eq, logger_eq; tidy;
      eexists; cbn [snd]; (split; [reflexivity|]); cbn; auto.
  - intros e He. unfold balance_call in *. unfold ensure_sufficient_balance.
    rewrite bind_eq, logger_eq, bind_eq, call_eq. tidy. rewrite He. reflexivity.
Qed.

Lemma ensure_sufficient_balance_effects_witness :
  ensure_sufficient_balance
    {| get_step := fun _ => Blocked; log_task := fun _ => Ok tt;
       create_steps := fun _ => Ok tt; update_step := fun _ => Ok tt;
       create_task := fun _ => Ok accepted; get_task_with_steps := fun _ => Ok JNull;
       get_plan_balance := fun _ => Raise (RemoteError "ledger unreachable");
       order_plan := fun _ => Ok true; generate_step_id := fun _ => "step-0" |}
    "did:nv:plan" 1 (initial_world [])
  = (Raise (RemoteError "ledger unreachable"),
     set_trace (balance_call "did:nv:plan" (trace (initial_world [])))
       (initial_world [])).
Proof.
  destruct (ensure_sufficient_balance_effects
              {| get_step := fun _ => Blocked; log_task := fun _ => Ok tt;
                 create_steps := fun _ => Ok tt; update_step := fun _ => Ok tt;
                 create_task := fun _ => Ok accepted;
                 get_task_with_steps := fun _ => Ok JNull;
                 get_plan_balance := fun _ => Raise (RemoteError "ledger unreachable");
                 order_plan := fun _ => Ok true; generate_step_id := fun _ => "step-0" |}
              "did:nv:plan" 1 (initial_world []))
    as [_ H].
  apply H. reflexivity.
Defined.

(** ** The join, its boundary *)

Lemma join_image_tasks_blocked (py : PyLib) (env : Config) (payments : Payments)
    (step : Step.t) (tasks : list (M nat)) (w : World) :
  result_of (gather py env payments tasks) w = Blocked ->
  join_image_tasks py env payments step tasks w
  = (Blocked, exec (gather py env payments tasks) w).
Proof.
  unfold result_of, exec, join_image_tasks, try_except. intros Hres.
  rewrite bind_eq. destruct (gather py env payments tasks w) as [r w1].
  cbn [fst snd] in *. subst r. reflexivity.
Qed.

(** X18: with a reliable store and log, the [try] statement of the image
    handler lets no exception out, whatever its delegates do: it either
    returns after exactly one [update_step] call, or waits for ever on the
    join without any update. *)
Theorem join_image_tasks_total_boundary (py : PyLib) (env : Config)
    (payments : Payments) (step : Step.t) (tasks : list (M nat)) (w : World) :
  reliable (log_task payments) ->
  reliable (update_step payments) ->
  exists new,
    exec (join_image_tasks py env payments step tasks) w
    = set_trace (trace (exec (gather py env payments tasks) w) ++ new)
        (exec (gather py env payments tasks) w)
    /\ ((result_of (join_image_tasks py env payments step tasks) w = Ok tt
         /\ length (List.filter is_update_step new) = 1%nat)
        \/ (result_of (join_image_tasks py env payments step tasks) w = Blocked
            /\ new = [])).
Proof.
  intros Hlog Hupdate.
  destruct (result_of (gather py env payments tasks) w) as [artifacts|e|] eqn:Hres.
  - exists (completed_events step artifacts). unfold exec at 1, result_of.
    rewrite (join_image_tasks_completed py env payments step tasks w Hlog Hupdate
               artifacts Hres).
    split; [reflexivity|]. left. split; reflexivity.
  - exists (failed_events step e). unfold exec at 1, result_of.
    rewrite (join_image_tasks_failed py env payments step tasks w Hlog Hupdate e Hres).
    split; [reflexivity|]. left. split; reflexivity.
  - exists []. unfold exec at 1, result_of.
    rewrite (join_image_tasks_blocked py env payments step tasks w Hres).
    cbn [fst snd]. rewrite app_nil_r.
    split; [destruct (exec _ w); reflexivity|]. right. split; reflexivity.
Qed.

Lemma join_image_tasks_total_boundary_witness :
  (exists new,
      exec (join_image_tasks sample_py sample_config (image_payments 5 true accepted)
              image_step (sample_delegates (image_payments 5 true accepted)))
        (after_balance_gate (initial_world []))
      = set_trace
          (trace (exec (gather sample_py sample_config (image_payments 5 true accepted)
                          (sample_delegates (image_payments 5 true accepted)))
                    (after_balance_gate (initial_world [])))
           ++ new)
          (exec (gather sample_py sample_config (image_payments 5 true accepted)
                   (sample_delegates (image_payments 5 true accepted)))
             (after_balance_gate (initial_world [])))
      /\ new = [])
  /\ (exists new,
      exec (join_image_tasks sample_py sample_config (image_payments 5 true accepted)
              image_step (sample_delegates (image_payments 5 true accepted)))
        (after_balance_gate second_fails)
      = set_trace
          (trace (exec (gather sample_py sample_config (image_payments 5 true accepted)
                          (sample_delegates (image_payments 5 true accepted)))
                    (after_balance_gate second_fails))
           ++ new)
          (exec (gather sample_py sample_config (image_payments 5 true accepted)
                   (sample_delegates (image_payments 5 true accepted)))
             (after_balance_gate second_fails))
      /\ length (List.filter is_update_step new) = 1%nat).
Proof.
  split.
  - destruct (join_image_tasks_total_boundary sample_py sample_config
                (image_payments 5 true accepted) image_step
                (sample_delegates (image_payments 5 true accepted))
                (after_balance_gate (initial_world [])))
      as (new & Heq & [[Hok _]|[_ Hnone]]);
      [intros t; reflexivity | intros t; reflexivity | discriminate Hok |].
    exists new. split; assumption.
  - destruct (join_image_tasks_total_boundary sample_py sample_config
                (image_payments 5 true accepted) image_step
                (sample_delegates (image_payments 5 true accepted))
                (after_balance_gate second_fails))
      as (new & Heq & [[_ Hone]|[Hblocked _]]);
      [intros t; reflexivity | intros t; reflexivity | | discriminate Hblocked].
    exists new. split; assumption.
Defined.

(** X19: the Completed update sits inside the [try] statement.  When every
    delegate resolved but the store refuses that update with an exception,
    the handler's [except] clause takes over: a second [update_step] call
    marks the step Failed, and the error log carries the store's exception. *)
Theorem join_image_tasks_refused_completion (py : PyLib) (env : Config)
    (payments : Payments) (step : Step.t) (tasks : list (M nat)) (w : World)
    (artifacts : list json) (e : exn) :
  let w1 := exec (gather py env payments tasks) w in
  result_of (gather py env payments tasks) w = Ok artifacts ->
  reliable (log_task payments) ->
  update_step payments (trace w1 ++ completed_events step artifacts) = Raise e ->
  update_step payments
    (trace w1 ++ completed_events step artifacts ++ firstn 1 (failed_events step e))
  = Ok tt ->
  join_image_tasks py env payments step tasks w
  = (Ok tt,
     set_trace (trace w1 ++ completed_events step artifacts ++ failed_events step e) w1).
Proof.
  cbn zeta. unfold result_of, exec, join_image_tasks, try_except.
  intros Hres Hlog Hrefused Hfailed.
  rewrite bind_eq. destruct (gather py env payments tasks w) as [r w1].
  cbn [fst snd] in *. subst r.
  rewrite bind_eq, log_message_eq. cbn zeta. rewrite Hlog, call_eq. tidy.
  match goal with
  | |- context [update_step payments ?t] =>
      replace (update_step payments t) with (@Raise unit e)
        by (symmetry; exact Hrefused)
  end.
  rewrite bind_eq, call_eq. tidy.
  match goal with
  | |- context [update_step payments ?t] =>
      replace (update_step payments t) with (Ok tt) by (symmetry; exact Hfailed)
  end.
  rewrite log_message_eq. cbn zeta. rewrite Hlog. tidy. reflexivity.
Qed.

Lemma join_image_tasks_refused_completion_witness :
  List.filter is_update_step
    (trace (exec (join_image_tasks sample_py sample_config
                    (refusing_completed (image_payments 5 true accepted)) image_step
                    (sample_delegates
                       (refusing_completed (image_payments 5 true accepted))))
              (after_balance_gate all_complete)))
  = [EvUpdateStep "did:nv:this" "task-1" "step-1"
       {| StepPatch.step_status := "Completed";
          StepPatch.output := JStr "All image tasks completed.";
          StepPatch.output_artifacts :=
            Some (JArr [JArr [JStr "t0.png"]; JArr [JStr "t1.png"];
                        JArr [JStr "t2.png"]]) |};
     EvUpdateStep "did:nv:this" "task-1" "step-1"
       {| StepPatch.step_status := "Failed";
          StepPatch.output := JStr "One or more image tasks failed.";
          StepPatch.output_artifacts := None |}].
Proof.
  unfold exec at 1.
  rewrite (join_image_tasks_refused_completion sample_py sample_config
             (refusing_completed (image_payments 5 true accepted)) image_step
             (sample_delegates (refusing_completed (image_payments 5 true accepted)))
             (after_balance_gate all_complete)
             [JArr [JStr "t0.png"]; JArr [JStr "t1.png"]; JArr [JStr "t2.png"]]
             (RemoteError "update refused"));
    [reflexivity | reflexivity | intros t; reflexivity | reflexivity | reflexivity].
Defined.

(** ** Delegates and their futures *)

(** X20: the callback of one delegate never touches the future of another:
    whatever signal it receives and whatever the client answers, every future
    other than its own keeps its state, and no future is added or removed. *)
Theorem image_task_callback_isolated (py : PyLib) (env : Config) (payments : Payments)
    (step : Step.t) (f g : nat) (validate_task_fn : Validator) (data : string)
    (w : World) :
  g <> f ->
  futures (exec (image_task_callback py env payments step f validate_task_fn data) w)
  !! g = futures w !! g
  /\ length (futures (exec (image_task_callback py env payments step f
                              validate_task_fn data) w))
     = length (futures w).
Proof.
  intros Hne.
  destruct (image_task_callback_once py env payments step f validate_task_fn data w)
    as [->|(_ & _ & s & _ & ->)]; [split; reflexivity|].
  split; [now apply list_lookup_insert_ne | apply length_insert].
Qed.

Lemma image_task_callback_isolated_witness :
  futures (exec (image_task_callback sample_py sample_config
                   (image_payments 5 true accepted) image_step 0
                   ValidateImageGenerationTask (object_text (failed_event "t0")))
             (set_futures [FPending; FPending] (initial_world [])))
  !! 1%nat = Some FPending.
Proof.
  destruct (image_task_callback_isolated sample_py sample_config
              (image_payments 5 true accepted) image_step 0 1
              ValidateImageGenerationTask (object_text (failed_event "t0"))
              (set_futures [FPending; FPending] (initial_world [])))
    as [H _]; [lia|].
  rewrite H. reflexivity.
Defined.

(** X21: when [create_task] answers 201, [query_agent_with_prompt] reaches its
    final await: it has made one store write, the task for the image
    generator with the prompt as query, and the future it waits for is a new
    one, still pending, which is the future captured by the callback it
    registered with that task. *)
Theorem query_agent_with_prompt_accepted (py : PyLib) (env : Config)
    (payments : Payments) (step : Step.t) (prompt agent_name : string)
    (validate_task_fn : Validator) (result : Response.t) (w : World) :
  let task_data :=
    {| TaskData.query := prompt; TaskData.name := Step.name step;
       TaskData.additional_params := []; TaskData.artifacts := [] |} in
  let created :=
    EvCreateTask (IMAGE_GENERATOR_DID env) task_data (length (callbacks w)) in
  let w' :=
    exec (query_agent_with_prompt py env payments step prompt agent_name
            validate_task_fn) w in
  create_task payments (trace w ++ [created]) = Ok result ->
  Response.status_code result = Some 201 ->
  result_of (query_agent_with_prompt py env payments step prompt agent_name
               validate_task_fn) w
  = Ok (length (futures w))
  /\ trace w' = trace w ++ [created]
  /\ futures w' = futures w ++ [FPending]
  /\ futures w' !! length (futures w) = Some FPending
  /\ callbacks w' !! length (callbacks w)
     = Some (ImageTaskCallback step (length (futures w)) validate_task_fn).
Proof.
  cbn zeta. intros Hcreate Hcode.
  assert (Heq : query_agent_with_prompt py env payments step prompt agent_name
                  validate_task_fn w
                = (Ok (length (futures w)),
                   set_trace
                     (trace w
                      ++ [EvCreateTask (IMAGE_GENERATOR_DID env)
                            {| TaskData.query := prompt; TaskData.name := Step.name step;
                               TaskData.additional_params := [];
                               TaskData.artifacts := [] |}
                            (length (callbacks w))])
                     (set_callbacks
                        (callbacks w
                         ++ [ImageTaskCallback step (length (futures w))
                               validate_task_fn])
                        (set_futures (futures w ++ [FPending]) w)))).
  { unfold query_agent_with_prompt.
    rewrite bind_eq. unfold create_future at 1. rewrite bind_eq, ai_create_task_eq.
    tidy. rewrite Hcreate. rewrite bind_eq. unfold lift at 1. rewrite Hcode.
    cbn [from_option Z.eqb Pos.eqb negb]. reflexivity. }
  unfold result_of, exec. rewrite Heq. tidy.
  repeat split; try reflexivity.
  - rewrite lookup_app_r by lia. now rewrite Nat.sub_diag.
  - rewrite lookup_app_r by lia. now rewrite Nat.sub_diag.
Qed.

Lemma query_agent_with_prompt_accepted_witness :
  result_of (query_agent_with_prompt sample_py sample_config
               (image_payments 5 true accepted) image_step "red" "Image Generator"
               ValidateImageGenerationTask) (initial_world [])
  = Ok 0%nat.
Proof.
  destruct (query_agent_with_prompt_accepted sample_py sample_config
              (image_payments 5 true accepted) image_step "red" "Image Generator"
              ValidateImageGenerationTask accepted (initial_world []))
    as [H _]; [reflexivity | reflexivity |].
  exact H.
Defined.

(** ** Logging *)

(** X22: [log_message] writes one console line and sends one task log.  The
    console line goes to the logger method named by the level when the level
    is info, warning, error or debug, and to [logger.info] for any other
    level, while the task log always carries the level as given; the outcome
    of [log_message] is the outcome of [log_task], so a failing log sink makes
    [log_message] raise. *)
Theorem log_message_levels (payments : Payments) (task_id level message : string)
    (task_status : option AgentExecutionStatus) (w : World) :
  exists console,
    log_message payments task_id level message task_status w
    = (log_task payments
         (trace w
          ++ [EvLogger console (task_id ++ " :: " ++ message)%string;
              EvLogTask {| TaskLog.task_id := task_id; TaskLog.level := level;
                           TaskLog.message := message;
                           TaskLog.task_status := task_status |}]),
       set_trace
         (trace w
          ++ [EvLogger console (task_id ++ " :: " ++ message)%string;
              EvLogTask {| TaskLog.task_id := task_id; TaskLog.level := level;
                           TaskLog.message := message;
                           TaskLog.task_status := task_status |}]) w)
    /\ (In level ["info"; "warning"; "error"; "debug"]%string -> console = level)
    /\ (~ In level ["info"; "warning"; "error"; "debug"]%string -> console = "info"%string).
Proof.
  exists (log_method level). split; [apply log_message_eq|].
  unfold log_method.
  destruct (existsb (String.eqb level) ["info"; "warning"; "error"; "debug"]%string)
    eqn:Hknown.
  - split; [reflexivity|]. intros Hnot. exfalso. apply Hnot.
    apply List.existsb_exists in Hknown as (x & Hin & Hx).
    apply String.eqb_eq in Hx. now subst x.
  - split; [|reflexivity]. intros Hin. exfalso.
    assert (Htrue : existsb (String.eqb level)
                      ["info"; "warning"; "error"; "debug"]%string = true).
    { apply List.existsb_exists. exists level. split; [exact Hin|].
      apply String.eqb_refl. }
    congruence.
Qed.

Lemma log_message_levels_witness :
  exec (log_message
          (sample_payments (sample_step "init" "Pending" None) 5 true accepted
             sample_task_of)
          "task-1" "critical" "disk full" None) (initial_world [])
  = set_trace
      [EvLogger "info" "task-1 :: disk full";
       EvLogTask {| TaskLog.task_id := "task-1"; TaskLog.level := "critical";
                    TaskLog.message := "disk full"; TaskLog.task_status := None |}]
      (initial_world []).
Proof.
  destruct (log_message_levels
              (sample_payments (sample_step "init" "Pending" None) 5 true accepted
                 sample_task_of)
              "task-1" "critical" "disk full" None (initial_world []))
    as (console & Heq & _ & Hunknown).
  unfold exec. rewrite Heq, Hunknown; [reflexivity|].
  cbn. intros [H|[H|[H|[H|[]]]]]; discriminate H.
Defined.
